(** * shrike-guard-js: the interception / decision core

    A shallow embedding of the scan sanitizer ([src/sanitizer.ts]), the
    stand-alone scan client ([src/scanner.ts]) and the three provider
    wrappers ([src/openai/client.ts], [src/anthropic/client.ts],
    [src/gemini/client.ts]), with the properties the specification states
    about them.

    Conventions of the embedding:
    - a JavaScript string is a [string]: a sequence of code units, one
      [ascii] per unit (code units below 256);
    - a JavaScript number is a binary64 [float]; the literals [0.9] and [0.7]
      denote the nearest binary64 values, as they do in the source;
    - an object used as a record (a scan result) is a [gmap string JsValue];
      reading an absent property yields [JUndefined];
    - an object literal used as a lookup table keeps its prototype chain:
      a key that is not an own property is looked up on [Object.prototype];
    - asynchronous code is sequential code in a state-and-exception monad
      whose state is the log of observable effects (scan requests, warnings,
      provider invocations); [fetch] and the provider SDKs are oracles. *)

From Stdlib Require Import ZArith Floats Ascii DecimalString.
From stdpp Require Import gmap strings list.

#[local] Set Warnings "-register-all,-inexact-float".
Local Open Scope Z_scope.

(** ** Strings *)

Module JsString.

Definition code (c : ascii) : N := N_of_ascii c.

(** [String.prototype.toLowerCase] on one code unit below 256:
    A-Z and the Latin-1 capitals (all of 0xC0-0xDE but the sign 0xD7). *)
Definition lower_unit (c : ascii) : ascii :=
  let n := code c in
  if ((65 <=? n) && (n <=? 90))%N
     || ((192 <=? n) && (n <=? 222) && negb (n =? 215))%N
  then ascii_of_N (n + 32) else c.

Fixpoint map_units (f : ascii -> ascii) (s : string) : string :=
  match s with
  | EmptyString => EmptyString
  | String c r => String (f c) (map_units f r)
  end.

Definition toLowerCase (s : string) : string := map_units lower_unit s.

(** [s.replace(/-/g, '_')] *)
Definition hyphens_to_underscores (s : string) : string :=
  map_units (fun c => if Ascii.eqb c "-" then "_"%char else c) s.

Fixpoint prefix (p s : string) : bool :=
  match p, s with
  | EmptyString, _ => true
  | String a p', String b s' => Ascii.eqb a b && prefix p' s'
  | String _ _, EmptyString => false
  end.

(** [hay.includes(needle)] *)
Fixpoint includes (needle hay : string) : bool :=
  prefix needle hay
  || match hay with
     | EmptyString => false
     | String _ r => includes needle r
     end.

(** White space and line terminators of ECMAScript among the code units
    below 256: TAB, LF, VT, FF, CR, SP and NBSP. *)
Definition is_space (c : ascii) : bool :=
  let n := code c in
  (((9 <=? n) && (n <=? 13)) || (n =? 32) || (n =? 160))%N.

Fixpoint trimStart (s : string) : string :=
  match s with
  | EmptyString => EmptyString
  | String c r => if is_space c then trimStart r else s
  end.

Fixpoint trimEnd (s : string) : string :=
  match s with
  | EmptyString => EmptyString
  | String c r =>
      match trimEnd r with
      | EmptyString => if is_space c then EmptyString else String c EmptyString
      | r' => String c r'
      end
  end.

Definition trim (s : string) : string := trimEnd (trimStart s).

Definition is_empty (s : string) : bool :=
  match s with EmptyString => true | _ => false end.

(** [parts.join(sep)] *)
Fixpoint join (sep : string) (parts : list string) : string :=
  match parts with
  | [] => ""
  | [p] => p
  | p :: rest => p +:+ sep +:+ join sep rest
  end.

(** [s.replace(/\/$/, '')]: one trailing slash is removed. *)
Fixpoint strip_trailing_slash (s : string) : string :=
  match s with
  | EmptyString => EmptyString
  | String c r =>
      if Ascii.eqb c "/" && is_empty r then EmptyString
      else String c (strip_trailing_slash r)
  end.

(** The decimal form of an integer-valued number, as a template literal
    prints it. *)
Definition of_Z (z : Z) : string := NilEmpty.string_of_int (Z.to_int z).

Definition length (s : string) : Z := Z.of_nat (String.length s).

(** A capital letter A-Z *)
Definition is_capital (c : ascii) : bool :=
  let n := code c in ((65 <=? n) && (n <=? 90))%N.

Fixpoint has_capital (s : string) : bool :=
  match s with
  | EmptyString => false
  | String c r => is_capital c || has_capital r
  end.

Fixpoint replicate (n : nat) (c : ascii) : string :=
  match n with
  | O => EmptyString
  | S k => String c (replicate k c)
  end.

End JsString.

(** ** Values *)

(** Built-in objects that a property read can reach through
    [Object.prototype]. *)
Inductive Builtin : Type :=
| ObjectConstructor
| ObjectPrototype
| ObjectPrototypeMethod (name : string).

Inductive JsValue : Type :=
| JUndefined
| JNull
| JBool (b : bool)
| JNum (x : float)
| JStr (s : string)
| JArr (items : list JsValue)
| JObj (fields : list (string * JsValue))
| JBuiltin (b : Builtin).

(** Values thrown by the code under study. [ErrError] stands for every other
    instance of [Error] (TypeError, SyntaxError, the AbortError
    DOMException), [ThrownValue] for a thrown value that is not an [Error]. *)
Inductive Thrown : Type :=
| ErrShrikeScan (message : string)
| ErrShrikeBlocked (message : string) (threatType confidence violations : JsValue)
| ErrError (name message : string)
| ThrownValue (v : JsValue).

Inductive Outcome (A : Type) : Type :=
| Return (a : A)
| Throw (e : Thrown).
Arguments Return {A} a.
Arguments Throw {A} e.

Module Js.

Definition is_nan (x : float) : bool := negb (PrimFloat.eqb x x).

(** ToBoolean *)
Definition truthy (v : JsValue) : bool :=
  match v with
  | JUndefined | JNull => false
  | JBool b => b
  | JNum x => negb (PrimFloat.eqb x 0%float) && negb (is_nan x)
  | JStr s => negb (JsString.is_empty s)
  | JArr _ | JObj _ | JBuiltin _ => true
  end.

(** [v === false] *)
Definition is_false (v : JsValue) : bool :=
  match v with JBool false => true | _ => false end.

(** [a || b] *)
Definition or (a b : JsValue) : JsValue := if truthy a then a else b.

(** [o.k] on a record-like object *)
Definition prop (o : gmap string JsValue) (k : string) : JsValue :=
  default JUndefined (o !! k).

Definition builtin_to_string (b : Builtin) : string :=
  match b with
  | ObjectConstructor => "function Object() { [native code] }"
  | ObjectPrototype => "[object Object]"
  | ObjectPrototypeMethod name => "function " +:+ name +:+ "() { [native code] }"
  end.

(** The names of the properties of [Object.prototype]. *)
Definition object_prototype_methods : list string :=
  [ "hasOwnProperty"; "isPrototypeOf"; "propertyIsEnumerable";
    "toLocaleString"; "toString"; "valueOf";
    "__defineGetter__"; "__defineSetter__";
    "__lookupGetter__"; "__lookupSetter__" ].

Definition object_prototype_get (k : string) : JsValue :=
  if String.eqb k "constructor" then JBuiltin ObjectConstructor
  else if String.eqb k "__proto__" then JBuiltin ObjectPrototype
  else if existsb (String.eqb k) object_prototype_methods
       then JBuiltin (ObjectPrototypeMethod k)
  else JUndefined.

Fixpoint own_lookup (tbl : list (string * string)) (k : string) : option string :=
  match tbl with
  | [] => None
  | (k', v) :: rest => if String.eqb k k' then Some v else own_lookup rest k
  end.

(** [TABLE[k]] for an object literal [TABLE : Record<string, string>]:
    own properties first, then the prototype chain. *)
Definition table_get (tbl : list (string * string)) (k : string) : JsValue :=
  match own_lookup tbl k with
  | Some v => JStr v
  | None => object_prototype_get k
  end.

End Js.

(** ToString depends on [Number::toString], which belongs to the engine and
    not to this code base: it is an interface the development is generic in. *)
Class Engine : Type := { number_to_string : float -> string }.

Fixpoint ToString `{Engine} (v : JsValue) : string :=
  match v with
  | JUndefined => "undefined"
  | JNull => "null"
  | JBool true => "true"
  | JBool false => "false"
  | JNum x => number_to_string x
  | JStr s => s
  | JArr items =>
      JsString.join ","
        (List.map (fun i => match i with
                            | JUndefined | JNull => ""
                            | _ => ToString i
                            end) items)
  | JObj _ => "[object Object]"
  | JBuiltin b => Js.builtin_to_string b
  end.

(** ** The sanitizer ([src/sanitizer.ts]) *)

Module Sanitizer.

Definition THREAT_TYPE_MAP : list (string * string) :=
  [ ("prompt_injection", "prompt_injection");
    ("injection", "prompt_injection");
    ("inject", "prompt_injection");
    ("instruction_override", "prompt_injection");
    ("role_hijacking", "prompt_injection");
    ("context_manipulation", "prompt_injection");
    ("token_manipulation", "prompt_injection");
    ("indirect_injection", "prompt_injection");
    ("context_poisoning", "prompt_injection");
    ("function_injection", "prompt_injection");
    ("memory_injection", "prompt_injection");
    ("topic_mismatch", "prompt_injection");
    ("jailbreak", "jailbreak");
    ("jailbreak_attempt", "jailbreak");
    ("safety_bypass", "jailbreak");
    ("roleplay", "jailbreak");
    ("hypothetical", "jailbreak");
    ("completion_baiting", "jailbreak");
    ("override", "jailbreak");
    ("manipulate", "jailbreak");
    ("tonality_drift_profanity", "jailbreak");
    ("tonality_drift_casual", "jailbreak");
    ("tonality_drift_hostile", "jailbreak");
    ("system_prompt_leak", "system_prompt_leak");
    ("system_prompt_extraction", "system_prompt_leak");
    ("data_exfiltration", "data_exfiltration");
    ("exfiltration", "data_exfiltration");
    ("exfiltrate", "data_exfiltration");
    ("extract", "data_exfiltration");
    ("data_leak", "data_exfiltration");
    ("information_disclosure", "data_exfiltration");
    ("credential_extraction", "data_exfiltration");
    ("sql_injection", "sql_injection");
    ("sqli", "sql_injection");
    ("tautology", "sql_injection");
    ("tautology_or", "sql_injection");
    ("tautology_and", "sql_injection");
    ("union_injection", "sql_injection");
    ("stacked_query", "sql_injection");
    ("path_traversal", "path_traversal");
    ("directory_traversal", "path_traversal");
    ("path_violation", "path_traversal");
    ("file_access", "path_traversal");
    ("sensitive_path", "path_traversal");
    ("sensitive_extension", "path_traversal");
    ("blocked_extension", "path_traversal");
    ("secrets_exposure", "secrets_exposure");
    ("secrets", "secrets_exposure");
    ("api_key", "secrets_exposure");
    ("credential", "secrets_exposure");
    ("sensitive_file", "secrets_exposure");
    ("content_violation", "secrets_exposure");
    ("sensitive_content", "secrets_exposure");
    ("secret_key", "secrets_exposure");
    ("aws_key", "secrets_exposure");
    ("private_key", "secrets_exposure");
    ("pii_exposure", "pii_exposure");
    ("pii", "pii_exposure");
    ("pii_leak", "pii_exposure");
    ("personal_data", "pii_exposure");
    ("pii_in_search", "pii_exposure");
    ("pii_extraction", "pii_exposure");
    ("ssn", "pii_exposure");
    ("credit_card", "pii_exposure");
    ("email_exposure", "pii_exposure");
    ("phone_number", "pii_exposure");
    ("unexpected_pii_leakage", "pii_exposure");
    ("blocked_domain", "blocked_domain");
    ("suspicious_tld", "blocked_domain");
    ("suspicious_domain", "blocked_domain");
    ("malicious_url", "blocked_domain");
    ("toxicity", "toxicity");
    ("harmful_content", "toxicity");
    ("malicious_content", "malicious_code");
    ("malicious_code", "malicious_code");
    ("reverse_shell", "malicious_code");
    ("web_shell", "malicious_code");
    ("fork_bomb", "malicious_code");
    ("crypto_miner", "malicious_code");
    ("persistence", "malicious_code");
    ("shell_injection", "malicious_code");
    ("harmful_intent", "harmful_intent");
    ("dangerous_request", "harmful_intent");
    ("social_engineering", "social_engineering");
    ("emotional", "social_engineering");
    ("authority_claim", "social_engineering");
    ("privilege_escalation", "privilege_escalation");
    ("destructive_operation", "destructive_operation");
    ("scan_error", "scan_error");
    ("size_limit_exceeded", "size_limit_exceeded");
    ("size_limit", "size_limit_exceeded");
    ("timeout", "scan_error") ].

Definition THREAT_GUIDANCE : list (string * string) :=
  [ ("prompt_injection",
     "This prompt contains patterns consistent with instruction override attempts.");
    ("jailbreak",
     "This prompt attempts to bypass safety guidelines. The request has been blocked.");
    ("system_prompt_leak",
     "The response contains system prompt disclosure. The response has been blocked.");
    ("data_exfiltration",
     "This prompt may attempt to extract sensitive information.");
    ("sql_injection", "This query contains potentially dangerous SQL patterns.");
    ("path_traversal",
     "This file path attempts to access directories outside the allowed scope.");
    ("secrets_exposure",
     "This content contains patterns matching API keys, tokens, or credentials.");
    ("pii_exposure", "This content contains personally identifiable information.");
    ("blocked_domain", "This web search targets a restricted domain.");
    ("toxicity",
     "This content contains potentially harmful or inappropriate language.");
    ("malicious_code",
     "This content contains patterns associated with malicious code.");
    ("harmful_intent",
     "This request contains content associated with harmful intent.");
    ("social_engineering", "This prompt contains social engineering patterns.");
    ("privilege_escalation",
     "This query attempts to escalate privileges or gain unauthorized access.");
    ("destructive_operation",
     "This query contains destructive operations. Review carefully.");
    ("scan_error",
     "The security scan could not be completed. Blocked as precaution.");
    ("size_limit_exceeded", "The content exceeds the maximum allowed size.");
    ("unknown", "A security concern was detected. Please review the content.") ].

Definition THREAT_SEVERITY : list (string * string) :=
  [ ("prompt_injection", "high");
    ("jailbreak", "high");
    ("system_prompt_leak", "high");
    ("data_exfiltration", "high");
    ("sql_injection", "critical");
    ("path_traversal", "high");
    ("secrets_exposure", "critical");
    ("pii_exposure", "high");
    ("blocked_domain", "medium");
    ("toxicity", "medium");
    ("malicious_code", "critical");
    ("harmful_intent", "high");
    ("social_engineering", "medium");
    ("privilege_escalation", "critical");
    ("destructive_operation", "critical");
    ("scan_error", "medium");
    ("size_limit_exceeded", "low");
    ("unknown", "medium") ].

Definition INTERNAL_FIELDS : list string :=
  [ "detected_by"; "policy_id"; "policy_name"; "matched_pattern";
    "matched_text"; "pattern"; "scan_stage"; "ai_reasoning";
    "llm_analysis"; "performance_metrics"; "performance" ].

(** Calling [toLowerCase] on a value that has no such method. *)
Definition not_a_function : Thrown :=
  ErrError "TypeError" "rawType.toLowerCase is not a function".

(** [rawType.toLowerCase().replace(/-/g, '_')] *)
Definition normalized_key (rawType : string) : string :=
  JsString.hyphens_to_underscores (JsString.toLowerCase rawType).

(** The public threat types: the values of [THREAT_TYPE_MAP] and [unknown]. *)
Definition public_threat_types : list string :=
  "unknown" :: List.map snd THREAT_TYPE_MAP.

Definition normalizeThreatType (rawType : JsValue) : Outcome JsValue :=
  if negb (Js.truthy rawType) then Return (JStr "unknown")
  else
    match rawType with
    | JStr s =>
        let normalized := normalized_key s in
        Return (Js.or (Js.table_get THREAT_TYPE_MAP normalized) (JStr "unknown"))
    | _ => Throw not_a_function
    end.

Definition validSeverities : list string := [ "critical"; "high"; "medium"; "low" ].

Definition deriveSeverity `{Engine}
    (threatType : JsValue) (rawSeverity : option string) : JsValue :=
  match rawSeverity with
  | Some sev =>
      if negb (JsString.is_empty sev)
         && existsb (String.eqb (JsString.toLowerCase sev)) validSeverities
      then JStr (JsString.toLowerCase sev)
      else Js.or (Js.table_get THREAT_SEVERITY (ToString threatType)) (JStr "medium")
  | None => Js.or (Js.table_get THREAT_SEVERITY (ToString threatType)) (JStr "medium")
  end.

Definition bucketConfidence (score : option float) : string :=
  match score with
  | None => "medium"
  | Some x =>
      if PrimFloat.leb 0.9%float x then "high"
      else if PrimFloat.leb 0.7%float x then "medium"
      else "low"
  end.

Definition sanitizeScanResponse `{Engine}
    (raw : gmap string JsValue) : Outcome (gmap string JsValue) :=
  let safe := negb (Js.is_false (Js.prop raw "safe")) in
  if safe then
    Return {[ "safe" := JBool true;
              "reason" := Js.or (Js.prop raw "reason") (JStr "") ]}
  else
    match normalizeThreatType (Js.prop raw "threat_type") with
    | Throw e => Throw e
    | Return threatType =>
        let confidence :=
          bucketConfidence
            match Js.prop raw "confidence" with JNum x => Some x | _ => None end in
        let severity :=
          deriveSeverity threatType
            match Js.prop raw "severity" with JStr s => Some s | _ => None end in
        let guidance :=
          Js.or (Js.table_get THREAT_GUIDANCE (ToString threatType))
                (Js.table_get THREAT_GUIDANCE "unknown") in
        Return {[ "safe" := JBool false;
                  "threat_type" := threatType;
                  "severity" := severity;
                  "confidence" := JStr confidence;
                  "reason" := Js.or (Js.prop raw "reason") guidance;
                  "guidance" := guidance ]}
    end.

End Sanitizer.


(** ** Configuration ([src/config.ts]) *)

Module Config.
Module FailMode.
Definition OPEN : string := "open".
Definition CLOSED : string := "closed".
End FailMode.
Definition DEFAULT_SCAN_TIMEOUT : Z := 10000.
Definition DEFAULT_FAIL_MODE : string := FailMode.OPEN.
Definition DEFAULT_ENDPOINT : string := "https://api.shrikesecurity.com/agent".
End Config.

(** ** Provider-native request shapes *)

(** [ContentPart] / [ContentBlock]: [{ type: string; text?: string }] *)
Record ContentPart : Type := { part_type : string; part_text : option string }.

(** [content?: string | ContentPart[] | null] *)
Inductive MessageContent : Type :=
| ContentAbsent
| ContentText (s : string)
| ContentParts (parts : list ContentPart).

Record ChatMessage : Type := { role : string; content : MessageContent }.

(** The parameters of a [create] call: the message list, the [stream] flag
    and the fields the wrappers never look at. *)
Record CreateParams : Type :=
  { messages : list ChatMessage; stream : JsValue; other : list (string * JsValue) }.

(** Gemini: an array item is a bare string or a part [{ text?: string }]. *)
Inductive GeminiPart : Type :=
| PartString (s : string)
| PartObject (text : option string).

(** [string | ContentPart[] | { parts?: ContentPart[]; text?: string }] *)
Inductive GeminiContent : Type :=
| GString (s : string)
| GArray (items : list GeminiPart)
| GObject (text : option string) (parts : option (list GeminiPart)).

(** ** Effects *)

Inductive Payload : Type :=
| PromptPayload (prompt : string) (context : option string)
| SpecializedPayload (content content_type : string) (context : list (string * string)).

(** A scan request: the URL, the bearer token and the JSON payload (the
    per-request trace id is random and left out). *)
Record Request : Type := { url : string; bearer : string; payload : Payload }.

(** What [JSON.parse] yields at the top level, as far as property reads on
    it go: [null], a value all of whose properties read here are undefined
    (a primitive or an array), or an object. *)
Inductive Parsed : Type :=
| ParsedNull
| ParsedPrimitive
| ParsedObject (raw : gmap string JsValue).

Inductive JsonBody : Type :=
| BodyInvalid (message : string)
| BodyParsed (v : Parsed).

Record Response : Type := { status : Z; body : JsonBody }.

(** [response.ok]: the status is in the range 200-299. *)
Definition ok (r : Response) : bool := (200 <=? status r) && (status r <=? 299).

Inductive FetchOutcome : Type :=
| FetchRejected (e : Thrown)
| FetchResponse (r : Response).

Inductive ProviderCall : Type :=
| OpenAIChatCompletionsCreate (params : CreateParams)
| AnthropicMessagesCreate (params : CreateParams)
| GeminiGenerateContent (contents : GeminiContent)
| GeminiGenerateContentStream (contents : GeminiContent)
| GeminiSendMessage (contents : GeminiContent)
| GeminiSendMessageStream (contents : GeminiContent).

Inductive Event : Type :=
| EvFetch (r : Request)
| EvWarn (message : string)
| EvProvider (c : ProviderCall).

(** The environment of a call: the scan service and the provider SDK. *)
Record World : Type :=
  { fetch : Request -> FetchOutcome;
    provider : ProviderCall -> Outcome JsValue }.

(** A computation runs on the log of the effects so far (oldest first) and
    returns or throws, with the log extended. *)
Definition M (A : Type) : Type := list Event -> Outcome A * list Event.

#[export] Instance M_ret : MRet M := fun A a log => (Return a, log).
#[export] Instance M_bind : MBind M := fun A B f m log =>
  match m log with
  | (Return a, log') => f a log'
  | (Throw e, log') => (Throw e, log')
  end.

Definition throw {A} (e : Thrown) : M A := fun log => (Throw e, log).
Definition lift {A} (o : Outcome A) : M A := fun log => (o, log).
Definition emit (e : Event) : M unit := fun log => (Return tt, log ++ [e]).

(** [try { body } catch (error) { handler }]; the [finally] blocks of the
    source only clear the timer. *)
Definition try_catch {A} (body : M A) (handler : Thrown -> M A) : M A :=
  fun log =>
    match body log with
    | (Return a, log') => (Return a, log')
    | (Throw e, log') => handler e log'
    end.

Definition call_fetch (w : World) (req : Request) : M Response :=
  _ ← emit (EvFetch req);
  match fetch w req with
  | FetchRejected e => throw e
  | FetchResponse r => mret r
  end.

(** [await response.json()] *)
Definition json (r : Response) : M Parsed :=
  match body r with
  | BodyInvalid message => throw (ErrError "SyntaxError" message)
  | BodyParsed v => mret v
  end.

Definition call_provider (w : World) (c : ProviderCall) : M JsValue :=
  _ ← emit (EvProvider c);
  lift (provider w c).

Definition fetches (log : list Event) : list Request :=
  omap (fun e => match e with EvFetch r => Some r | _ => None end) log.

Definition provider_calls (log : list Event) : list ProviderCall :=
  omap (fun e => match e with EvProvider c => Some c | _ => None end) log.

(** [sanitizeScanResponse((await response.json()) as ScanResult)]: the cast
    is unchecked, so the first property read fails on [null]. *)
Definition sanitize_parsed `{Engine} (v : Parsed) : Outcome (gmap string JsValue) :=
  match v with
  | ParsedNull =>
      Throw (ErrError "TypeError" "Cannot read properties of null (reading 'safe')")
  | ParsedPrimitive => Sanitizer.sanitizeScanResponse ∅
  | ParsedObject raw => Sanitizer.sanitizeScanResponse raw
  end.

Definition NL : string := String (ascii_of_N 10) EmptyString.

(** ** What the three wrappers share

    The constructors of [ShrikeOpenAI], [ShrikeAnthropic] and [ShrikeGemini]
    set the same four fields in the same way, and [_remoteScan] is repeated
    verbatim in the three classes. *)

Module Wrapper.

Record Options : Type :=
  { shrikeApiKey : option string;
    shrikeEndpoint : option string;
    failMode : JsValue;
    scanTimeout : option Z }.

Record Client : Type :=
  { _shrikeEndpoint : string;
    _shrikeApiKey : string;
    _failMode : JsValue;
    _scanTimeout : Z }.

(** [a || b] on an optional string *)
Definition string_or (a : option string) (b : string) : string :=
  match a with
  | Some s => if JsString.is_empty s then b else s
  | None => b
  end.

Definition constructor (options : Options) : Client :=
  {| _shrikeEndpoint :=
       JsString.strip_trailing_slash
         (string_or (shrikeEndpoint options) Config.DEFAULT_ENDPOINT);
     _shrikeApiKey := string_or (shrikeApiKey options) "";
     _failMode :=
       match failMode options with
       | JStr s => JStr s
       | v => Js.or v (JStr Config.DEFAULT_FAIL_MODE)
       end;
     _scanTimeout :=
       match scanTimeout options with
       | Some t => if t =? 0 then Config.DEFAULT_SCAN_TIMEOUT else t
       | None => Config.DEFAULT_SCAN_TIMEOUT
       end |}.

(** [this._failMode === FailMode.OPEN] *)
Definition fail_open (c : Client) : bool :=
  match _failMode c with
  | JStr s => String.eqb s Config.FailMode.OPEN
  | _ => false
  end.

(** [error instanceof Error ? error.message : String(error)] *)
Definition error_message `{Engine} (e : Thrown) : string :=
  match e with
  | ErrShrikeScan m | ErrShrikeBlocked m _ _ _ | ErrError _ m => m
  | ThrownValue v => ToString v
  end.

(** [String(error)]: for an [Error], its name and message. *)
Definition error_to_string `{Engine} (e : Thrown) : string :=
  let render name message :=
    if JsString.is_empty name then message
    else if JsString.is_empty message then name
    else name +:+ ": " +:+ message in
  match e with
  | ErrShrikeScan m => render "ShrikeScanError" m
  | ErrShrikeBlocked m _ _ _ => render "ShrikeBlockedError" m
  | ErrError name m => render name m
  | ThrownValue v => ToString v
  end.

Definition safe_verdict (reason : string) : gmap string JsValue :=
  {[ "safe" := JBool true; "reason" := JStr reason ]}.

Definition scan_request (c : Client) (path : string) (p : Payload) : Request :=
  {| url := _shrikeEndpoint c +:+ path; bearer := _shrikeApiKey c; payload := p |}.

(** The request [_remoteScan] sends for a prompt. *)
Definition prompt_request (c : Client) (prompt : string) : Request :=
  scan_request c "/scan" (PromptPayload prompt None).

(** The [catch] block of [_remoteScan]. *)
Definition catch_block `{Engine} (c : Client) (error : Thrown)
  : M (gmap string JsValue) :=
  match error with
  | ErrShrikeScan _ => throw error
  | _ =>
      let errorMessage := error_message error in
      if JsString.includes "abort" errorMessage then
        if fail_open c then
          _ ← emit (EvWarn "Scan request timed out, failing open (allowing request)");
          mret (safe_verdict "Scan timeout, failing open")
        else
          throw (ErrShrikeScan "Scan request timed out and fail_mode is 'closed'")
      else if fail_open c then
        mret (safe_verdict ("Scan error: " +:+ errorMessage))
      else
        throw (ErrShrikeScan ("Scan failed: " +:+ errorMessage))
  end.

Definition _remoteScan `{Engine}
    (w : World) (c : Client) (prompt : string) : M (gmap string JsValue) :=
  try_catch
    (response ← call_fetch w (prompt_request c prompt);
     if negb (ok response) then
       if fail_open c then
         mret (safe_verdict ("Scan API error: " +:+ JsString.of_Z (status response)))
       else
         throw (ErrShrikeScan
                  ("Scan API returned error: " +:+ JsString.of_Z (status response)))
     else
       raw ← json response;
       lift (sanitize_parsed raw))
    (catch_block c).

(** [throw new ShrikeBlockedError(message, scanResult.threat_type,
    scanResult.confidence, scanResult.violations || [])] *)
Definition blocked (message : string) (scanResult : gmap string JsValue) : Thrown :=
  ErrShrikeBlocked message
    (Js.prop scanResult "threat_type")
    (Js.prop scanResult "confidence")
    (Js.or (Js.prop scanResult "violations") (JArr [])).

(** [!scanResult.safe] *)
Definition unsafe (scanResult : gmap string JsValue) : bool :=
  negb (Js.truthy (Js.prop scanResult "safe")).

End Wrapper.

(** ** [ShrikeOpenAI] ([src/openai/client.ts]) *)

Module ShrikeOpenAI.
Import Wrapper.

Definition constructor : Options -> Client := Wrapper.constructor.

Definition _extractUserContent (messages : list ChatMessage) : string :=
  JsString.join NL
    (flat_map
       (fun msg =>
          match content msg with
          | ContentText s =>
              if String.eqb (role msg) "user" && negb (JsString.is_empty s)
              then [s] else []
          | ContentParts parts =>
              if String.eqb (role msg) "user" then
                flat_map
                  (fun part =>
                     match part_text part with
                     | Some t =>
                         if String.eqb (part_type part) "text"
                            && negb (JsString.is_empty t)
                         then [t] else []
                     | None => []
                     end) parts
              else []
          | ContentAbsent => []
          end) messages).

Definition _remoteScan `{Engine} := Wrapper._remoteScan.

Definition _scanMessages `{Engine}
    (w : World) (c : Client) (messages : list ChatMessage)
  : M (gmap string JsValue) :=
  let userContent := _extractUserContent messages in
  if JsString.is_empty (JsString.trim userContent) then
    mret (safe_verdict "No user content to scan")
  else _remoteScan w c userContent.

(** [chat.completions.create] *)
Definition create `{Engine} (w : World) (c : Client) (params : CreateParams)
  : M JsValue :=
  scanResult ← _scanMessages w c (messages params);
  if unsafe scanResult then
    throw (blocked
             ("Request blocked: " +:+
                ToString (Js.or (Js.prop scanResult "reason")
                                (JStr "Security threat detected")))
             scanResult)
  else call_provider w (OpenAIChatCompletionsCreate params).

Definition specialized_scan `{Engine}
    (w : World) (c : Client) (p : Payload) (label : string)
  : M (gmap string JsValue) :=
  try_catch
    (response ← call_fetch w (scan_request c "/api/scan/specialized" p);
     if negb (ok response) then
       if fail_open c then
         mret (safe_verdict ("Scan API error: " +:+ JsString.of_Z (status response)))
       else
         throw (ErrShrikeScan
                  (label +:+ " scan API returned error: "
                     +:+ JsString.of_Z (status response)))
     else
       raw ← json response;
       lift (sanitize_parsed raw))
    (fun error =>
       match error with
       | ErrShrikeScan _ => throw error
       | _ =>
           if fail_open c then
             mret (safe_verdict ("Scan error: " +:+ error_to_string error))
           else
             throw (ErrShrikeScan
                      (label +:+ " scan failed: " +:+ error_to_string error))
       end).

Definition scanSql `{Engine} (w : World) (c : Client)
    (query : string) (database : option string) (allowDestructive : bool)
  : M (gmap string JsValue) :=
  specialized_scan w c
    (SpecializedPayload query "sql"
       [ ("database", string_or database "");
         ("allow_destructive", if allowDestructive then "true" else "false") ])
    "SQL".

Definition scanFile `{Engine} (w : World) (c : Client)
    (path : string) (content : option string)
  : M (gmap string JsValue) :=
  let given := negb (JsString.is_empty (string_or content "")) in
  specialized_scan w c
    (SpecializedPayload path
       (if given then "file_content" else "file_path")
       (if given then [ ("file_content", string_or content "") ] else []))
    "File".

End ShrikeOpenAI.

(** ** [ShrikeAnthropic] ([src/anthropic/client.ts]) *)

Module ShrikeAnthropic.
Import Wrapper.

Definition constructor : Options -> Client := Wrapper.constructor.

Definition _extractUserContent (messages : list ChatMessage) : string :=
  JsString.join NL
    (flat_map
       (fun msg =>
          if String.eqb (role msg) "user" then
            match content msg with
            | ContentText s => [s]
            | ContentParts blocks =>
                flat_map
                  (fun block =>
                     match part_text block with
                     | Some t =>
                         if String.eqb (part_type block) "text"
                            && negb (JsString.is_empty t)
                         then [t] else []
                     | None => []
                     end) blocks
            | ContentAbsent => []
            end
          else []) messages).

Definition _remoteScan `{Engine} := Wrapper._remoteScan.

Definition _scanMessages `{Engine}
    (w : World) (c : Client) (messages : list ChatMessage)
  : M (gmap string JsValue) :=
  let userContent := _extractUserContent messages in
  if JsString.is_empty (JsString.trim userContent) then
    mret (safe_verdict "No user content to scan")
  else _remoteScan w c userContent.

(** [messages.create]; the provider receives [{ ...params, stream: false }]. *)
Definition create `{Engine} (w : World) (c : Client) (params : CreateParams)
  : M JsValue :=
  scanResult ← _scanMessages w c (messages params);
  if unsafe scanResult then
    throw (blocked
             ("Request blocked: " +:+
                ToString (Js.or (Js.prop scanResult "reason")
                                (JStr "Security threat detected")))
             scanResult)
  else
    call_provider w
      (AnthropicMessagesCreate
         {| messages := messages params;
            stream := JBool false;
            other := other params |}).

End ShrikeAnthropic.

(** ** [ShrikeGemini] ([src/gemini/client.ts]) *)

Module ShrikeGemini.
Import Wrapper.

Definition constructor : Options -> Client := Wrapper.constructor.

Definition extract_items (items : list GeminiPart) : string :=
  JsString.join NL
    (flat_map
       (fun item =>
          match item with
          | PartString s => [s]
          | PartObject (Some t) => if JsString.is_empty t then [] else [t]
          | PartObject None => []
          end) items).

Definition _extractContent (contents : GeminiContent) : string :=
  match contents with
  | GString s => s
  | GArray items => extract_items items
  | GObject text parts =>
      if negb (JsString.is_empty (string_or text "")) then string_or text ""
      else
        match parts with
        | Some items => extract_items items
        | None => "[object Object]"
        end
  end.

Definition _remoteScan `{Engine} := Wrapper._remoteScan.

Definition _scanContent `{Engine}
    (w : World) (c : Client) (contents : GeminiContent)
  : M (gmap string JsValue) :=
  let textContent := _extractContent contents in
  if JsString.is_empty (JsString.trim textContent) then
    mret (safe_verdict "No text content to scan")
  else _remoteScan w c textContent.

(** The four protected entry points differ in the provider method only. *)
Definition guarded `{Engine} (w : World) (c : Client)
    (contents : GeminiContent) (call : GeminiContent -> ProviderCall)
  : M JsValue :=
  scanResult ← _scanContent w c contents;
  if unsafe scanResult then
    throw (blocked
             (ToString (Js.or (Js.prop scanResult "reason")
                              (JStr "Request blocked by Shrike")))
             scanResult)
  else call_provider w (call contents).

Definition generateContent `{Engine} w c contents :=
  guarded w c contents GeminiGenerateContent.
Definition generateContentStream `{Engine} w c contents :=
  guarded w c contents GeminiGenerateContentStream.
Definition sendMessage `{Engine} w c content :=
  guarded w c content GeminiSendMessage.
Definition sendMessageStream `{Engine} w c content :=
  guarded w c content GeminiSendMessageStream.

End ShrikeGemini.

(** ** [ScanClient] ([src/scanner.ts]) *)

Module ScanClient.

Definition MAX_CONTENT_SIZE : Z := 100 * 1024.

Record ScanClientOptions : Type :=
  { opt_apiKey : string; opt_endpoint : option string; opt_timeout : option Z }.

Record Client : Type := { apiKey : string; endpoint : string; timeout : Z }.

Definition constructor (options : ScanClientOptions) : Client :=
  {| apiKey := opt_apiKey options;
     endpoint :=
       JsString.strip_trailing_slash
         (Wrapper.string_or (opt_endpoint options) Config.DEFAULT_ENDPOINT);
     timeout :=
       match opt_timeout options with
       | Some t => if t =? 0 then Config.DEFAULT_SCAN_TIMEOUT else t
       | None => Config.DEFAULT_SCAN_TIMEOUT
       end |}.

(** [x?.length || 0] *)
Definition optional_length (x : option string) : Z :=
  match x with Some s => JsString.length s | None => 0 end.

(** [Math.round(size / 1024)] for a size that is a non-negative integer *)
Definition round_kb (size : Z) : Z := (size + 512) / 1024.

(** The verdict synthesised when the input is larger than the limit. *)
Definition too_large (what noun : string) (size : Z) : gmap string JsValue :=
  {[ "safe" := JBool false;
     "reason" :=
       JStr (what +:+ " too large (" +:+ JsString.of_Z (round_kb size) +:+ "KB > "
               +:+ JsString.of_Z (MAX_CONTENT_SIZE / 1024) +:+ "KB limit)");
     "threat_type" := JStr "size_limit_exceeded";
     "confidence" := JNum 1%float;
     "violations" :=
       JArr [ JObj [ ("type", JStr "size_limit");
                     ("description",
                      JStr (noun +:+ " exceeds maximum size of "
                              +:+ JsString.of_Z (MAX_CONTENT_SIZE / 1024) +:+ "KB")) ] ] ]}.

(** The request of each method after its size check: no [catch], so a
    rejected [fetch] and a response that is not ok both throw. *)
Definition post `{Engine} (w : World) (c : Client)
    (path : string) (p : Payload) (label : string) : M (gmap string JsValue) :=
  response ← call_fetch w {| url := endpoint c +:+ path; bearer := apiKey c; payload := p |};
  if negb (ok response) then
    throw (ErrError "Error"
             (label +:+ " returned error: " +:+ JsString.of_Z (status response)))
  else
    raw ← json response;
    lift (sanitize_parsed raw).

Definition scan `{Engine} (w : World) (c : Client)
    (prompt : string) (context : option string) : M (gmap string JsValue) :=
  let totalSize := JsString.length prompt + optional_length context in
  if MAX_CONTENT_SIZE <? totalSize then
    mret (too_large "Content" "Content" totalSize)
  else
    post w c "/scan"
      (PromptPayload prompt
         match context with
         | Some s => if JsString.is_empty s then None else Some s
         | None => None
         end)
      "Scan API".

Definition scanSql `{Engine} (w : World) (c : Client)
    (query : string) (database : option string) (allowDestructive : bool)
  : M (gmap string JsValue) :=
  if MAX_CONTENT_SIZE <? JsString.length query then
    mret (too_large "SQL query" "Query" (JsString.length query))
  else
    post w c "/api/scan/specialized"
      (SpecializedPayload query "sql"
         [ ("database", Wrapper.string_or database "");
           ("allow_destructive", if allowDestructive then "true" else "false") ])
      "SQL scan API".

Definition scanFile `{Engine} (w : World) (c : Client)
    (path : string) (content : option string) : M (gmap string JsValue) :=
  let totalSize := JsString.length path + optional_length content in
  if MAX_CONTENT_SIZE <? totalSize then
    mret (too_large "File content" "Content" totalSize)
  else
    let given := negb (JsString.is_empty (Wrapper.string_or content "")) in
    post w c "/api/scan/specialized"
      (SpecializedPayload path
         (if given then "file_content" else "file_path")
         (if given then [ ("file_content", Wrapper.string_or content "") ] else []))
      "File scan API".

End ScanClient.

(** ** The specification's reading of the extractor

    The content extractor as the specification words it: every span of text
    authored by the user role, in order, joined by newlines. A span is a
    flat string content or the text of a block whose type is [text]. *)

Inductive Span : Type :=
| FlatSpan (s : string)
| BlockSpan (s : string).

Definition span_text (sp : Span) : string :=
  match sp with FlatSpan s | BlockSpan s => s end.

Definition user_spans (messages : list ChatMessage) : list Span :=
  flat_map
    (fun msg =>
       if String.eqb (role msg) "user" then
         match content msg with
         | ContentText s => [FlatSpan s]
         | ContentParts parts =>
             flat_map
               (fun part =>
                  match part_text part with
                  | Some t =>
                      if String.eqb (part_type part) "text" then [BlockSpan t] else []
                  | None => []
                  end) parts
         | ContentAbsent => []
         end
       else []) messages.

Definition spec_extract (messages : list ChatMessage) : string :=
  JsString.join NL (List.map span_text (user_spans messages)).

Definition nonempty_span (sp : Span) : bool := negb (JsString.is_empty (span_text sp)).

Definition flat_or_nonempty (sp : Span) : bool :=
  match sp with FlatSpan _ => true | BlockSpan s => negb (JsString.is_empty s) end.

(** ** Sample data for the examples *)

(** Any engine will do where a statement holds for all of them. *)
Definition sample_engine : Engine := {| number_to_string := fun _ => "NaN" |}.

Definition user_says (s : string) : ChatMessage :=
  {| role := "user"; content := ContentText s |}.

Definition assistant_says (s : string) : ChatMessage :=
  {| role := "assistant"; content := ContentText s |}.

Definition sample_options (mode : JsValue) : Wrapper.Options :=
  {| Wrapper.shrikeApiKey := Some "shrike-test";
     Wrapper.shrikeEndpoint := Some "https://scan.example/";
     Wrapper.failMode := mode;
     Wrapper.scanTimeout := None |}.

Definition sample_params (ms : list ChatMessage) : CreateParams :=
  {| messages := ms; stream := JUndefined; other := [("model", JStr "gpt-4")] |}.

(** A world whose scan service always answers with the given outcome and
    whose provider always answers [null]. *)
Definition world_of (o : FetchOutcome) : World :=
  {| fetch := fun _ => o; provider := fun _ => Return JNull |}.

Definition answers (st : Z) (raw : gmap string JsValue) : FetchOutcome :=
  FetchResponse {| status := st; body := BodyParsed (ParsedObject raw) |}.

(** The rejection of a [fetch] whose [AbortController] fired. *)
Definition AbortError : Thrown := ErrError "AbortError" "This operation was aborted".

(** The outcomes of the scan request that count as a failure of the scan
    infrastructure: a rejected [fetch], a response that is not ok, a body
    that is not JSON, and a body the sanitizer throws on. *)
Definition infrastructure_failure `{Engine} (o : FetchOutcome) : bool :=
  match o with
  | FetchRejected _ => true
  | FetchResponse r =>
      negb (ok r)
      || match body r with
         | BodyInvalid _ => true
         | BodyParsed v =>
             match sanitize_parsed v with Throw _ => true | Return _ => false end
         end
  end.

Definition is_scan_error (e : Thrown) : bool :=
  match e with ErrShrikeScan _ => true | _ => false end.




Definition sample_client (mode : string) : Wrapper.Client :=
  Wrapper.constructor (sample_options (JStr mode)).

Definition hello : list ChatMessage := [user_says "Hello!"].

(** The warning logged when a timed-out scan fails open. *)
Definition timeout_warning : Event :=
  EvWarn "Scan request timed out, failing open (allowing request)".

(** A backend answer without a [safe] field, with an internal field. *)
Definition unflagged_payload : gmap string JsValue :=
  {[ "reason" := JStr "No threats detected"; "detected_by" := JStr "L3" ]}.

(** The backend answer of the specification's SQL scenario. *)
Definition tautology_payload : gmap string JsValue :=
  {[ "safe" := JBool false;
     "threat_type" := JStr "tautology_or";
     "confidence" := JNum 0.97%float ]}.

Definition tautology_verdict : gmap string JsValue :=
  {[ "safe" := JBool false;
     "threat_type" := JStr "sql_injection";
     "severity" := JStr "critical";
     "confidence" := JStr "high";
     "reason" := JStr "This query contains potentially dangerous SQL patterns.";
     "guidance" := JStr "This query contains potentially dangerous SQL patterns." ]}.

Definition sample_scan_client : ScanClient.Client :=
  ScanClient.constructor
    {| ScanClient.opt_apiKey := "shrike-test";
       ScanClient.opt_endpoint := None;
       ScanClient.opt_timeout := None |}.

(** A scan service that finds nothing. *)
Definition calm_world : World := world_of (answers 200 {[ "safe" := JBool true ]}).

Definition system_says (s : string) : ChatMessage :=
  {| role := "system"; content := ContentText s |}.

(** A Gemini array item that carries no text. *)
Definition textless (item : GeminiPart) : bool :=
  match item with
  | PartObject None => true
  | PartObject (Some t) => JsString.is_empty t
  | PartString _ => false
  end.

(** A scan service that never answers in time. *)
Definition stalled_world : World := world_of (FetchRejected AbortError).

(** A scan service that answers with a server error. *)
Definition failing_world : World :=
  world_of (FetchResponse {| status := 500; body := BodyInvalid "Unexpected end of JSON input" |}).

(** The messages of the user role. *)
Definition user_messages (messages : list ChatMessage) : list ChatMessage :=
  List.filter (fun msg => String.eqb (role msg) "user") messages.


(** The guidance texts. *)
Definition guidance_texts : list string := List.map snd Sanitizer.THREAT_GUIDANCE.

(** An unsafe backend answer whose threat type is a number. *)
Definition malformed_payload : gmap string JsValue :=
  {[ "safe" := JBool false; "threat_type" := JNum 5%float ]}.

(** The request [ScanClient.scan] sends when the input is within the limit. *)
Definition scan_client_request
    (c : ScanClient.Client) (prompt : string) (context : option string) : Request :=
  {| url := ScanClient.endpoint c +:+ "/scan";
     bearer := ScanClient.apiKey c;
     payload :=
       PromptPayload prompt
         match context with
         | Some s => if JsString.is_empty s then None else Some s
         | None => None
         end |}.

(** The items of a Gemini part list that carry text. *)
Definition with_text (items : list GeminiPart) : list GeminiPart :=
  List.filter (fun item => negb (textless item)) items.

(** The requests of the specialized scans of [ShrikeOpenAI]. *)
Definition sql_request (c : Wrapper.Client)
    (query : string) (database : option string) (allowDestructive : bool) : Request :=
  Wrapper.scan_request c "/api/scan/specialized"
    (SpecializedPayload query "sql"
       [ ("database", Wrapper.string_or database "");
         ("allow_destructive", if allowDestructive then "true" else "false") ]).

Definition file_request (c : Wrapper.Client)
    (path : string) (content : option string) : Request :=
  Wrapper.scan_request c "/api/scan/specialized"
    match content with
    | Some text =>
        if JsString.is_empty text then SpecializedPayload path "file_path" []
        else SpecializedPayload path "file_content" [ ("file_content", text) ]
    | None => SpecializedPayload path "file_path" []
    end.

(** The value the [try] block of a wrapper scan throws, if any: the
    rejection of [fetch], the [SyntaxError] of an unreadable body, or what
    the sanitizer throws. A response that is not ok throws nothing here: it
    is resolved in place. *)
Definition scan_throws `{Engine} (o : FetchOutcome) : option Thrown :=
  match o with
  | FetchRejected e => Some e
  | FetchResponse r =>
      if ok r then
        match body r with
        | BodyInvalid message => Some (ErrError "SyntaxError" message)
        | BodyParsed v =>
            match sanitize_parsed v with Throw e => Some e | Return _ => None end
        end
      else None
  end.

(** A streaming request to Anthropic. *)
Definition streaming_params : CreateParams :=
  {| messages := hello; stream := JBool true; other := [] |}.

(** A scan service whose connection is refused. *)
Definition unreachable_world : World :=
  world_of (FetchRejected (ErrError "TypeError" "fetch failed")).

(** An unsafe backend answer that grades the threat itself. *)
Definition graded_payload : gmap string JsValue :=
  {[ "safe" := JBool false;
     "threat_type" := JStr "sqli";
     "severity" := JStr "LOW" ]}.

Definition graded_verdict : gmap string JsValue :=
  {[ "safe" := JBool false;
     "threat_type" := JStr "sql_injection";
     "severity" := JStr "low";
     "confidence" := JStr "medium";
     "reason" := JStr "This query contains potentially dangerous SQL patterns.";
     "guidance" := JStr "This query contains potentially dangerous SQL patterns." ]}.

(** 102401 code units: one more than [MAX_CONTENT_SIZE]. *)
Definition oversized_prompt : string := JsString.replicate (Z.to_nat 102401) "a".

(** * Properties *)

(** ** Sanitizer *)

Section SanitizerFacts.
Context `{Engine}.
Import Sanitizer.


(** The sanitizer fails only on an unsafe payload whose [threat_type] is a
    truthy value that is not a string. *)
Lemma normalizeThreatType_throws rawType e :
  normalizeThreatType rawType = Throw e ->
  e = not_a_function /\ Js.truthy rawType = true
  /\ forall s, rawType <> JStr s.
Proof.
  unfold normalizeThreatType.
  destruct (Js.truthy rawType) eqn:Ht; simpl; [|discriminate].
  destruct rawType; try discriminate; intros [= <-]; repeat split; congruence.
Qed.

Lemma normalizeThreatType_string s :
  normalizeThreatType (JStr s) =
    Return (if JsString.is_empty s then JStr "unknown"
            else Js.or (Js.table_get THREAT_TYPE_MAP (normalized_key s))
                       (JStr "unknown")).
Proof. unfold normalizeThreatType. simpl. now destruct s. Qed.

End SanitizerFacts.

Section SanitizerClaims.
Context `{Engine}.
Import Sanitizer.

Lemma is_false_spec v : Js.is_false v = true <-> v = JBool false.
Proof.
  split; [|now intros ->].
  destruct v as [| |[|]| | | | |]; simpl; congruence.
Qed.

Lemma safe_branch (raw : gmap string JsValue) :
  Js.prop raw "safe" <> JBool false ->
  sanitizeScanResponse raw =
    Return {[ "safe" := JBool true;
              "reason" := Js.or (Js.prop raw "reason") (JStr "") ]}.
Proof.
  intros Hsafe. unfold sanitizeScanResponse.
  destruct (Js.prop raw "safe") as [| |[|]| | | | |]; try reflexivity.
  now destruct Hsafe.
Qed.

Lemma unsafe_branch (raw : gmap string JsValue) threatType :
  Js.prop raw "safe" = JBool false ->
  normalizeThreatType (Js.prop raw "threat_type") = Return threatType ->
  sanitizeScanResponse raw =
    let guidance :=
      Js.or (Js.table_get THREAT_GUIDANCE (ToString threatType))
            (Js.table_get THREAT_GUIDANCE "unknown") in
    Return {[ "safe" := JBool false;
              "threat_type" := threatType;
              "severity" :=
                deriveSeverity threatType
                  match Js.prop raw "severity" with JStr s => Some s | _ => None end;
              "confidence" :=
                JStr (bucketConfidence
                        match Js.prop raw "confidence" with
                        | JNum x => Some x
                        | _ => None
                        end);
              "reason" := Js.or (Js.prop raw "reason") guidance;
              "guidance" := guidance ]}.
Proof.
  intros Hs Hn. unfold sanitizeScanResponse. now rewrite Hs, Hn.
Qed.

Lemma unsafe_throws (raw : gmap string JsValue) e :
  Js.prop raw "safe" = JBool false ->
  normalizeThreatType (Js.prop raw "threat_type") = Throw e ->
  sanitizeScanResponse raw = Throw e.
Proof.
  intros Hs Hn. unfold sanitizeScanResponse. now rewrite Hs, Hn.
Qed.

Lemma unsafe_flag_is_kept (raw out : gmap string JsValue) :
  Js.prop raw "safe" = JBool false ->
  sanitizeScanResponse raw = Return out ->
  out !! "safe" = Some (JBool false).
Proof.
  intros Hs Hout.
  destruct (normalizeThreatType (Js.prop raw "threat_type")) as [tt|e] eqn:Hn.
  - rewrite (unsafe_branch raw tt Hs Hn) in Hout. cbv zeta in Hout.
    now injection Hout as <-.
  - rewrite (unsafe_throws raw e Hs Hn) in Hout. discriminate.
Qed.

(** C7. [sanitizeScanResponse] takes [raw.safe !== false] as the safety
    flag. Whenever the [safe] field of the raw payload is missing, undefined
    or any value other than the boolean [false], the result is exactly
    [{ safe: true, reason: raw.reason || '' }], every other raw field being
    discarded. The boolean [false] is the only value that is read as
    unsafe: with it, a result is never the safe verdict, its [safe] is
    [false]. So the payloads that get the safe verdict are exactly those
    whose [safe] is not [false]. *)
Theorem sanitize_defaults_to_safe (raw : gmap string JsValue) :
  (Js.prop raw "safe" <> JBool false ->
   sanitizeScanResponse raw =
     Return {[ "safe" := JBool true;
               "reason" := Js.or (Js.prop raw "reason") (JStr "") ]})
  /\ (Js.prop raw "safe" = JBool false ->
      forall out,
        sanitizeScanResponse raw = Return out ->
        out !! "safe" = Some (JBool false))
  /\ (sanitizeScanResponse raw =
        Return {[ "safe" := JBool true;
                  "reason" := Js.or (Js.prop raw "reason") (JStr "") ]}
      <-> Js.prop raw "safe" <> JBool false).
Proof.
  split; [apply safe_branch|].
  split; [intros Hs out Hout; now apply (unsafe_flag_is_kept raw out)|].
  split; [|apply safe_branch].
  intros Hout Hs.
  pose proof (unsafe_flag_is_kept raw _ Hs Hout) as Hflag.
  discriminate Hflag.
Qed.

(** C2. Whatever the raw payload, a result of [sanitizeScanResponse] has
    the public fields only. A payload that is not flagged unsafe gives
    exactly [{ safe: true, reason }], without [threat_type], [severity] or
    [guidance]; an unsafe one gives exactly the six fields [safe],
    [threat_type], [severity], [confidence], [reason] and [guidance]; no
    field of [INTERNAL_FIELDS] is ever present. The only payloads without
    a result are unsafe ones whose [threat_type] is a truthy non-string,
    on which [toLowerCase] throws. *)
Theorem sanitize_public_fields_only (raw : gmap string JsValue) :
  (exists out,
      sanitizeScanResponse raw = Return out
      /\ ((Js.prop raw "safe" <> JBool false
           /\ out = {[ "safe" := JBool true;
                       "reason" := Js.or (Js.prop raw "reason") (JStr "") ]}
           /\ dom out = {[ "safe"; "reason" ]}
           /\ out !! "threat_type" = None
           /\ out !! "severity" = None
           /\ out !! "guidance" = None)
          \/ (Js.prop raw "safe" = JBool false
              /\ out !! "safe" = Some (JBool false)
              /\ dom out = {[ "safe"; "threat_type"; "severity";
                              "confidence"; "reason"; "guidance" ]}))
      /\ Forall (fun k => out !! k = None) INTERNAL_FIELDS)
  \/ (sanitizeScanResponse raw = Throw not_a_function
      /\ Js.prop raw "safe" = JBool false
      /\ Js.truthy (Js.prop raw "threat_type") = true
      /\ forall s, Js.prop raw "threat_type" <> JStr s).
Proof.
  destruct (Js.is_false (Js.prop raw "safe")) eqn:Hs.
  - apply is_false_spec in Hs.
    destruct (normalizeThreatType (Js.prop raw "threat_type")) as [tt|e] eqn:Hn.
    + left. rewrite (unsafe_branch raw tt Hs Hn). cbv zeta.
      eexists. split; [reflexivity|]. split.
      * right. split; [assumption|]. split; [reflexivity|].
        rewrite !dom_insert_L, dom_singleton_L. set_solver.
      * unfold INTERNAL_FIELDS. repeat constructor.
    + right. rewrite (unsafe_throws raw e Hs Hn).
      apply normalizeThreatType_throws in Hn as (-> & Ht & Hns). auto.
  - assert (Js.prop raw "safe" <> JBool false) as Hne.
    { intros Heq. apply is_false_spec in Heq. congruence. }
    left. rewrite (safe_branch raw Hne).
    eexists. split; [reflexivity|]. split.
    + left. split; [assumption|]. split; [reflexivity|].
      split; [|repeat split; reflexivity].
      rewrite dom_insert_L, dom_singleton_L. set_solver.
    + unfold INTERNAL_FIELDS. repeat constructor.
Qed.

End SanitizerClaims.

Section Confidence.
Context `{Engine}.
Import Sanitizer.

(** Binary64 order: at or above 0.9 is at or above 0.7. *)
Lemma above_high_above_medium (x : float) :
  PrimFloat.leb 0.9%float x = true -> PrimFloat.leb 0.7%float x = true.
Proof.
  rewrite !leb_spec.
  change (Prim2SF 0.9%float) with (S754_finite false 8106479329266893 (-53)).
  change (Prim2SF 0.7%float) with (S754_finite false 6305039478318694 (-53)).
  unfold SFleb, SFcompare.
  destruct (Prim2SF x) as [s|s| |s m e]; try destruct s;
    try (intros; reflexivity); try (intros; discriminate).
  destruct (Z.compare (-53) e) eqn:He;
    try (intros; reflexivity); try (intros; discriminate).
  rewrite !Pos.compare_cont_spec. unfold Pos.switch_Eq.
  set (a := 8106479329266893%positive). set (b := 6305039478318694%positive).
  assert (Hab : (b < a)%positive) by (subst a b; reflexivity).
  clearbody a b.
  destruct (Pos.compare_spec a m) as [Ha|Ha|Ha];
    destruct (Pos.compare_spec b m) as [Hb|Hb|Hb]; intros Hle;
    try reflexivity; try discriminate Hle; exfalso; lia.
Qed.

Lemma bucketConfidence_cases (score : option float) :
  let c := bucketConfidence score in
  (c = "high" \/ c = "medium" \/ c = "low")
  /\ match score with
     | Some x =>
         (PrimFloat.leb 0.9%float x = true -> c = "high")
         /\ (PrimFloat.leb 0.7%float x = true ->
             PrimFloat.leb 0.9%float x = false -> c = "medium")
         /\ (PrimFloat.leb 0.7%float x = false -> c = "low")
     | None => c = "medium"
     end.
Proof.
  destruct score as [x|]; simpl; [|auto].
  destruct (PrimFloat.leb 0.9%float x) eqn:H9.
  - rewrite (above_high_above_medium x H9). repeat split; auto; congruence.
  - destruct (PrimFloat.leb 0.7%float x) eqn:H7; repeat split; auto; congruence.
Qed.

(** C8. In every unsafe verdict the sanitizer produces, [confidence] is
    one of the strings [high], [medium] and [low], never the raw number: a
    numeric raw score at or above 0.90 gives [high], one at or above 0.70
    (and below 0.90) gives [medium], any other number gives [low], and an
    absent or non-numeric raw confidence gives [medium]. Raw 0.95 gives
    [high], 0.75 gives [medium], 0.5 gives [low]. *)
Theorem confidence_is_bucketed (raw out : gmap string JsValue) :
  sanitizeScanResponse raw = Return out ->
  out !! "safe" = Some (JBool false) ->
  (exists c,
      out !! "confidence" = Some (JStr c)
      /\ (c = "high" \/ c = "medium" \/ c = "low")
      /\ match Js.prop raw "confidence" with
         | JNum x =>
             (PrimFloat.leb 0.9%float x = true -> c = "high")
             /\ (PrimFloat.leb 0.7%float x = true ->
                 PrimFloat.leb 0.9%float x = false -> c = "medium")
             /\ (PrimFloat.leb 0.7%float x = false -> c = "low")
         | _ => c = "medium"
         end)
  /\ bucketConfidence (Some 0.95%float) = "high"
  /\ bucketConfidence (Some 0.75%float) = "medium"
  /\ bucketConfidence (Some 0.5%float) = "low".
Proof.
  intros Hout Hsafe. split; [|repeat split; reflexivity].
  destruct (Js.is_false (Js.prop raw "safe")) eqn:Hs.
  - apply is_false_spec in Hs.
    destruct (normalizeThreatType (Js.prop raw "threat_type")) as [tt|e] eqn:Hn.
    + rewrite (unsafe_branch raw tt Hs Hn) in Hout. cbv zeta in Hout.
      injection Hout as <-.
      eexists. split; [reflexivity|].
      destruct (Js.prop raw "confidence");
        first [ apply (bucketConfidence_cases None)
              | apply (bucketConfidence_cases (Some _)) ].
    + rewrite (unsafe_throws raw e Hs Hn) in Hout. discriminate.
  - rewrite safe_branch in Hout.
    + injection Hout as <-. discriminate.
    + intros Heq. apply is_false_spec in Heq. congruence.
Qed.

End Confidence.

(** ** Threat-type normalization *)

Section Normalization.
Import Sanitizer.

Lemma lower_unit_not_capital c : JsString.is_capital (JsString.lower_unit c) = false.
Proof. destruct c as [[] [] [] [] [] [] [] []]; reflexivity. Qed.

Lemma normalized_key_no_capital s : JsString.has_capital (normalized_key s) = false.
Proof.
  unfold normalized_key, JsString.toLowerCase, JsString.hyphens_to_underscores.
  induction s as [|c r IH]; [reflexivity|].
  cbn [JsString.map_units JsString.has_capital]. rewrite IH, orb_false_r.
  pose proof (lower_unit_not_capital c) as Hc.
  destruct (Ascii.eqb (JsString.lower_unit c) "-"); [reflexivity | exact Hc].
Qed.

(** Every method name of [Object.prototype] has a capital letter, so a
    normalized key is none of them. *)
Lemma normalized_key_not_method s :
  existsb (String.eqb (normalized_key s)) Js.object_prototype_methods = false.
Proof.
  pose proof (normalized_key_no_capital s) as Hcap.
  apply not_true_is_false. intros Hex.
  apply existsb_exists in Hex as (name & Hin & Heq).
  apply String.eqb_eq in Heq. rewrite Heq in Hcap.
  assert (forallb JsString.has_capital Js.object_prototype_methods = true) as Hall
    by reflexivity.
  rewrite forallb_forall in Hall. specialize (Hall name Hin). congruence.
Qed.

Lemma own_lookup_in tbl k v :
  Js.own_lookup tbl k = Some v -> In v (List.map snd tbl).
Proof.
  induction tbl as [|[k' v'] rest IH]; simpl; [discriminate|].
  destruct (String.eqb k k'); [intros [= ->]; now left | intros; right; auto].
Qed.

(** What [normalizeThreatType] returns on a string: a public threat type, or
    one of the two built-ins that a lower-case key reaches through the
    prototype chain of the table. *)
Lemma normalizeThreatType_range s :
  (exists p, normalizeThreatType (JStr s) = Return (JStr p) /\ In p public_threat_types)
  \/ (normalized_key s = "constructor"
      /\ normalizeThreatType (JStr s) = Return (JBuiltin ObjectConstructor))
  \/ (normalized_key s = "__proto__"
      /\ normalizeThreatType (JStr s) = Return (JBuiltin ObjectPrototype)).
Proof.
  rewrite normalizeThreatType_string.
  destruct (JsString.is_empty s); [left; eexists; split; [reflexivity | now left]|].
  unfold Js.table_get.
  destruct (Js.own_lookup THREAT_TYPE_MAP (normalized_key s)) as [v|] eqn:Hown.
  - left. apply own_lookup_in in Hown.
    unfold Js.or. simpl. destruct (JsString.is_empty v) eqn:Hv.
    + eexists; split; [reflexivity | now left].
    + eexists; split; [reflexivity | now right].
  - unfold Js.object_prototype_get.
    destruct (String.eqb (normalized_key s) "constructor") eqn:Hc.
    { right; left. apply String.eqb_eq in Hc. now split. }
    destruct (String.eqb (normalized_key s) "__proto__") eqn:Hp.
    { right; right. apply String.eqb_eq in Hp. now split. }
    rewrite normalized_key_not_method. left.
    eexists; split; [reflexivity | now left].
Qed.

Lemma public_threat_types_fixed p :
  In p public_threat_types -> normalizeThreatType (JStr p) = Return (JStr p).
Proof.
  assert (forallb
            (fun q => match normalizeThreatType (JStr q) with
                      | Return (JStr q') => String.eqb q q'
                      | _ => false
                      end) public_threat_types = true) as Hall by (vm_compute; reflexivity).
  rewrite forallb_forall in Hall. intros Hin. specialize (Hall p Hin).
  destruct (normalizeThreatType (JStr p)) as [[]|]; try discriminate.
  apply String.eqb_eq in Hall. now subst.
Qed.

(** Away from the two prototype keys, normalization is idempotent and its
    result is a public threat type. *)
Lemma normalizeThreatType_idempotent_off_prototype s :
  normalized_key s <> "constructor" ->
  normalized_key s <> "__proto__" ->
  exists p,
    normalizeThreatType (JStr s) = Return (JStr p)
    /\ In p public_threat_types
    /\ normalizeThreatType (JStr p) = Return (JStr p).
Proof.
  intros Hc Hp.
  destruct (normalizeThreatType_range s) as [(p & Hn & Hin)|[[Hk _]|[Hk _]]];
    [|contradiction..].
  exists p. auto using public_threat_types_fixed.
Qed.

(** C9. The claim holds for every input but those whose normalized key is
    [constructor] or [__proto__]. There [THREAT_TYPE_MAP[normalized]] reads an
    inherited property of the object literal: the result is not [unknown],
    is not a string, and normalizing it again throws. *)
Theorem normalize_reaches_the_prototype :
  normalizeThreatType (JStr "constructor") = Return (JBuiltin ObjectConstructor)
  /\ normalizeThreatType (JStr "__proto__") = Return (JBuiltin ObjectPrototype)
  /\ normalizeThreatType (JBuiltin ObjectConstructor) = Throw not_a_function
  /\ ~ (forall t v w,
          normalizeThreatType (JStr t) = Return v ->
          normalizeThreatType v = w -> w = Return v).
Proof.
  repeat split; try reflexivity.
  intros Hidem.
  specialize (Hidem "constructor" (JBuiltin ObjectConstructor) _ eq_refl eq_refl).
  discriminate.
Qed.

End Normalization.

(** ** Content extraction *)

Section Extraction.

Lemma kept_spans_app (keep : Span -> bool) (xs ys : list Span) :
  List.map span_text (List.filter keep (xs ++ ys)) =
    List.map span_text (List.filter keep xs) ++ List.map span_text (List.filter keep ys).
Proof. now rewrite List.filter_app, List.map_app. Qed.

Lemma block_spans_kept (keep : Span -> bool) (parts : list ContentPart) :
  (forall t, keep (BlockSpan t) = negb (JsString.is_empty t)) ->
  flat_map
    (fun part =>
       match part_text part with
       | Some t =>
           if String.eqb (part_type part) "text" && negb (JsString.is_empty t)
           then [t] else []
       | None => []
       end) parts
  = List.map span_text
      (List.filter keep
         (flat_map
            (fun part =>
               match part_text part with
               | Some t =>
                   if String.eqb (part_type part) "text" then [BlockSpan t] else []
               | None => []
               end) parts)).
Proof.
  intros Hkeep. induction parts as [|part rest IH]; [reflexivity|].
  cbn [flat_map]. rewrite kept_spans_app, <- IH. f_equal.
  destruct (part_text part) as [t|]; [|reflexivity].
  destruct (String.eqb (part_type part) "text"); [|reflexivity].
  cbn [List.filter List.map andb]. rewrite Hkeep.
  now destruct (JsString.is_empty t).
Qed.

Lemma openai_extract_spans (messages : list ChatMessage) :
  ShrikeOpenAI._extractUserContent messages =
    JsString.join NL
      (List.map span_text (List.filter nonempty_span (user_spans messages))).
Proof.
  unfold ShrikeOpenAI._extractUserContent, user_spans. f_equal.
  induction messages as [|msg rest IH]; [reflexivity|].
  cbn [flat_map]. rewrite kept_spans_app, <- IH. f_equal.
  destruct (content msg) as [|s|parts].
  - now destruct (String.eqb (role msg) "user").
  - destruct (String.eqb (role msg) "user"); [|reflexivity].
    cbn. unfold nonempty_span. cbn. now destruct (JsString.is_empty s).
  - destruct (String.eqb (role msg) "user"); [|reflexivity].
    now apply block_spans_kept.
Qed.

Lemma anthropic_extract_spans (messages : list ChatMessage) :
  ShrikeAnthropic._extractUserContent messages =
    JsString.join NL
      (List.map span_text (List.filter flat_or_nonempty (user_spans messages))).
Proof.
  unfold ShrikeAnthropic._extractUserContent, user_spans. f_equal.
  induction messages as [|msg rest IH]; [reflexivity|].
  cbn [flat_map]. rewrite kept_spans_app, <- IH. f_equal.
  destruct (String.eqb (role msg) "user"); [|reflexivity].
  destruct (content msg) as [|s|parts]; [reflexivity..|].
  now apply block_spans_kept.
Qed.

Lemma filter_all_kept {A} (keep : A -> bool) (xs : list A) :
  forallb keep xs = true -> List.filter keep xs = xs.
Proof.
  induction xs as [|x rest IH]; [reflexivity|]. cbn.
  intros [Hx Hrest]%andb_prop. rewrite Hx. f_equal. auto.
Qed.

(** C6, as the code has it. Both extractors return the newline-joined user
    spans in their original order, minus the empty ones they drop:
    [ShrikeOpenAI] drops every empty span, [ShrikeAnthropic] drops the empty
    text blocks and keeps an empty flat string. On a conversation without
    empty user spans both are the specification's extractor, and on
    [user A, assistant B, user C] both give [A], newline, [C]. *)
Theorem extractors_join_kept_user_spans (messages : list ChatMessage) :
  ShrikeOpenAI._extractUserContent messages =
    JsString.join NL
      (List.map span_text (List.filter nonempty_span (user_spans messages)))
  /\ ShrikeAnthropic._extractUserContent messages =
       JsString.join NL
         (List.map span_text (List.filter flat_or_nonempty (user_spans messages)))
  /\ (forallb nonempty_span (user_spans messages) = true ->
      ShrikeOpenAI._extractUserContent messages = spec_extract messages
      /\ ShrikeAnthropic._extractUserContent messages = spec_extract messages)
  /\ ShrikeOpenAI._extractUserContent
       [user_says "A"; assistant_says "B"; user_says "C"] = "A" +:+ NL +:+ "C"
  /\ ShrikeAnthropic._extractUserContent
       [user_says "A"; assistant_says "B"; user_says "C"] = "A" +:+ NL +:+ "C".
Proof.
  split; [apply openai_extract_spans|].
  split; [apply anthropic_extract_spans|].
  split; [|split; reflexivity].
  intros Hall. rewrite openai_extract_spans, anthropic_extract_spans.
  unfold spec_extract. rewrite (filter_all_kept nonempty_span _ Hall).
  split; [reflexivity|]. rewrite filter_all_kept; [reflexivity|].
  rewrite forallb_forall in Hall |- *. intros sp Hin. specialize (Hall sp Hin).
  destruct sp; [reflexivity | exact Hall].
Qed.

Lemma extractors_join_kept_user_spans_witness :
  forallb nonempty_span
    (user_spans [user_says "A"; assistant_says "B"; user_says "C"]) = true
  /\ ShrikeOpenAI._extractUserContent
       [user_says "A"; assistant_says "B"; user_says "C"]
     = spec_extract [user_says "A"; assistant_says "B"; user_says "C"]
  /\ ShrikeAnthropic._extractUserContent
       [user_says "A"; assistant_says "B"; user_says "C"]
     = spec_extract [user_says "A"; assistant_says "B"; user_says "C"].
Proof.
  split; [reflexivity|].
  destruct (extractors_join_kept_user_spans
              [user_says "A"; assistant_says "B"; user_says "C"])
    as (_ & _ & Hspec & _).
  apply Hspec. reflexivity.
Defined.

(** C6 as stated fails: an empty flat string of the user is a span that
    [ShrikeOpenAI] leaves out, an empty text block is a span that both leave
    out, and on the same conversation the two extractors differ. *)
Lemma empty_spans_are_dropped :
  spec_extract [user_says ""; user_says "A"] = NL +:+ "A"
  /\ ShrikeOpenAI._extractUserContent [user_says ""; user_says "A"] = "A"
  /\ ShrikeAnthropic._extractUserContent [user_says ""; user_says "A"] = NL +:+ "A"
  /\ ShrikeOpenAI._extractUserContent [user_says ""; user_says "A"]
     <> spec_extract [user_says ""; user_says "A"]
  /\ ShrikeAnthropic._extractUserContent
       [ {| role := "user";
            content := ContentParts [ {| part_type := "text"; part_text := Some "" |};
                                      {| part_type := "text"; part_text := Some "A" |} ] |} ]
     <> spec_extract
          [ {| role := "user";
               content := ContentParts [ {| part_type := "text"; part_text := Some "" |};
                                         {| part_type := "text"; part_text := Some "A" |} ] |} ].
Proof. repeat split; try reflexivity; vm_compute; discriminate. Qed.

End Extraction.

(** ** The scan step of the wrappers *)

Ltac run_monad :=
  unfold ShrikeOpenAI._remoteScan, ShrikeAnthropic._remoteScan,
    ShrikeGemini._remoteScan, Wrapper._remoteScan,
    try_catch, call_fetch, call_provider, json, emit, throw, lift,
    mbind, M_bind, mret, M_ret.

Section RemoteScan.
Context `{Engine}.
Import Wrapper.

Variables (w : World) (c : Client) (prompt : string) (log : list Event).

Lemma remoteScan_rejected e :
  fetch w (prompt_request c prompt) = FetchRejected e ->
  _remoteScan w c prompt log =
    catch_block c e (log ++ [EvFetch (prompt_request c prompt)]).
Proof.
  intros Hf. run_monad. rewrite Hf. destruct e; reflexivity.
Qed.

Lemma remoteScan_not_ok r :
  fetch w (prompt_request c prompt) = FetchResponse r -> ok r = false ->
  _remoteScan w c prompt log =
    (if fail_open c
     then Return (safe_verdict ("Scan API error: " +:+ JsString.of_Z (status r)))
     else Throw (ErrShrikeScan
                   ("Scan API returned error: " +:+ JsString.of_Z (status r))),
     log ++ [EvFetch (prompt_request c prompt)]).
Proof.
  intros Hf Hok. run_monad. rewrite Hf, Hok. cbn.
  now destruct (fail_open c).
Qed.

Lemma remoteScan_bad_json r message :
  fetch w (prompt_request c prompt) = FetchResponse r ->
  ok r = true -> body r = BodyInvalid message ->
  _remoteScan w c prompt log =
    catch_block c (ErrError "SyntaxError" message)
      (log ++ [EvFetch (prompt_request c prompt)]).
Proof.
  intros Hf Hok Hb. run_monad. rewrite Hf, Hok, Hb. reflexivity.
Qed.

Lemma remoteScan_sanitized r v verdict :
  fetch w (prompt_request c prompt) = FetchResponse r ->
  ok r = true -> body r = BodyParsed v ->
  sanitize_parsed v = Return verdict ->
  _remoteScan w c prompt log =
    (Return verdict, log ++ [EvFetch (prompt_request c prompt)]).
Proof.
  intros Hf Hok Hb Hs. run_monad. rewrite Hf, Hok, Hb. cbn.
  now rewrite Hs.
Qed.

Lemma remoteScan_sanitizer_throws r v e :
  fetch w (prompt_request c prompt) = FetchResponse r ->
  ok r = true -> body r = BodyParsed v ->
  sanitize_parsed v = Throw e ->
  _remoteScan w c prompt log =
    catch_block c e (log ++ [EvFetch (prompt_request c prompt)]).
Proof.
  intros Hf Hok Hb Hs. run_monad. rewrite Hf, Hok, Hb. cbn.
  rewrite Hs. destruct e; reflexivity.
Qed.

(** Under any mode but [open] the [catch] block throws a [ShrikeScanError]
    and logs nothing. *)
Lemma catch_block_closed e l :
  fail_open c = false ->
  exists m, catch_block c e l = (Throw (ErrShrikeScan m), l).
Proof.
  intros Hc. unfold catch_block. rewrite Hc.
  destruct e; try (eexists; reflexivity);
    match goal with
    | |- context [JsString.includes ?a ?b] => destruct (JsString.includes a b)
    end; eexists; reflexivity.
Qed.

(** Under mode [open] the [catch] block returns a safe verdict, unless the
    value caught is a [ShrikeScanError], which it throws again. *)
Lemma catch_block_open e l :
  fail_open c = true -> is_scan_error e = false ->
  exists reason tail,
    catch_block c e l = (Return (safe_verdict reason), l ++ tail)
    /\ fetches tail = [] /\ provider_calls tail = []
    /\ (JsString.includes "abort" (error_message e) = true ->
        reason = "Scan timeout, failing open").
Proof.
  intros Hc He.
  assert (catch_block c e l =
            if JsString.includes "abort" (error_message e)
            then (Return (safe_verdict "Scan timeout, failing open"),
                  l ++ [EvWarn "Scan request timed out, failing open (allowing request)"])
            else (Return (safe_verdict ("Scan error: " +:+ error_message e)), l))
    as ->.
  { unfold catch_block. rewrite Hc.
    destruct e; try discriminate;
      cbv beta iota zeta delta [error_message];
      match goal with
      | |- context [JsString.includes ?a ?b] => destruct (JsString.includes a b)
      end; reflexivity. }
  destruct (JsString.includes "abort" (error_message e)).
  - eexists _, [EvWarn _]. repeat split.
  - eexists _, []. rewrite app_nil_r. repeat split. discriminate.
Qed.

(** Whatever happens, [_remoteScan] sends exactly one request, first, and
    never calls the provider; at most a warning follows the request. *)
Lemma catch_block_log e l :
  exists tail,
    snd (catch_block c e l) = l ++ tail
    /\ fetches tail = [] /\ provider_calls tail = [].
Proof.
  unfold catch_block.
  destruct e; try (exists []; rewrite app_nil_r; now repeat split);
    match goal with
    | |- context [JsString.includes ?a ?b] => destruct (JsString.includes a b)
    end; destruct (fail_open c);
    first [ exists []; rewrite app_nil_r; now repeat split
          | eexists [EvWarn _]; now repeat split ].
Qed.

Lemma remoteScan_log :
  exists tail,
    snd (_remoteScan w c prompt log) =
      log ++ EvFetch (prompt_request c prompt) :: tail
    /\ fetches tail = [] /\ provider_calls tail = [].
Proof.
  destruct (fetch w (prompt_request c prompt)) as [e|r] eqn:Hf.
  - rewrite (remoteScan_rejected e Hf).
    destruct (catch_block_log e (log ++ [EvFetch (prompt_request c prompt)]))
      as (tail & -> & Hft & Hpt).
    exists tail. now rewrite <- app_assoc.
  - destruct (ok r) eqn:Hok.
    + destruct (body r) as [message|v] eqn:Hb.
      * rewrite (remoteScan_bad_json r message Hf Hok Hb).
        destruct (catch_block_log (ErrError "SyntaxError" message)
                    (log ++ [EvFetch (prompt_request c prompt)]))
          as (tail & -> & Hft & Hpt).
        exists tail. now rewrite <- app_assoc.
      * destruct (sanitize_parsed v) as [verdict|e] eqn:Hs.
        -- rewrite (remoteScan_sanitized r v verdict Hf Hok Hb Hs).
           exists []. now repeat split.
        -- rewrite (remoteScan_sanitizer_throws r v e Hf Hok Hb Hs).
           destruct (catch_block_log e (log ++ [EvFetch (prompt_request c prompt)]))
             as (tail & -> & Hft & Hpt).
           exists tail. now rewrite <- app_assoc.
    + rewrite (remoteScan_not_ok r Hf Hok). exists []. now repeat split.
Qed.

(** Fail-closed: every failure of the scan infrastructure ends in a
    [ShrikeScanError]. *)
Lemma remoteScan_closed_failure :
  fail_open c = false ->
  infrastructure_failure (fetch w (prompt_request c prompt)) = true ->
  exists m,
    _remoteScan w c prompt log =
      (Throw (ErrShrikeScan m), log ++ [EvFetch (prompt_request c prompt)]).
Proof.
  intros Hc Hfail. unfold infrastructure_failure in Hfail.
  destruct (fetch w (prompt_request c prompt)) as [e|r] eqn:Hf.
  - rewrite (remoteScan_rejected e Hf). now apply catch_block_closed.
  - destruct (ok r) eqn:Hok.
    + destruct (body r) as [message|v] eqn:Hb.
      * rewrite (remoteScan_bad_json r message Hf Hok Hb).
        now apply catch_block_closed.
      * destruct (sanitize_parsed v) as [verdict|e] eqn:Hs; [discriminate|].
        rewrite (remoteScan_sanitizer_throws r v e Hf Hok Hb Hs).
        now apply catch_block_closed.
    + rewrite (remoteScan_not_ok r Hf Hok), Hc. eexists; reflexivity.
Qed.

End RemoteScan.

(** ** The guarded entry points *)

Section Entry.
Context `{Engine}.
Import Wrapper.

Variables (w : World) (c : Client) (log : list Event).

Lemma trim_starts_with_text ch r :
  JsString.is_space ch = false ->
  JsString.is_empty (JsString.trim (String ch r)) = false.
Proof.
  intros Hch. unfold JsString.trim. cbn [JsString.trimStart]. rewrite Hch.
  cbn [JsString.trimEnd]. destruct (JsString.trimEnd r); [now rewrite Hch|reflexivity].
Qed.

Lemma openai_scan_blank messages :
  JsString.trim (ShrikeOpenAI._extractUserContent messages) = "" ->
  ShrikeOpenAI._scanMessages w c messages log =
    (Return (safe_verdict "No user content to scan"), log).
Proof. intros Hb. unfold ShrikeOpenAI._scanMessages. now rewrite Hb. Qed.

Lemma openai_scan_text messages :
  JsString.is_empty (JsString.trim (ShrikeOpenAI._extractUserContent messages)) = false ->
  ShrikeOpenAI._scanMessages w c messages log =
    _remoteScan w c (ShrikeOpenAI._extractUserContent messages) log.
Proof. intros Hb. unfold ShrikeOpenAI._scanMessages. now rewrite Hb. Qed.

Lemma anthropic_scan_blank messages :
  JsString.trim (ShrikeAnthropic._extractUserContent messages) = "" ->
  ShrikeAnthropic._scanMessages w c messages log =
    (Return (safe_verdict "No user content to scan"), log).
Proof. intros Hb. unfold ShrikeAnthropic._scanMessages. now rewrite Hb. Qed.

Lemma anthropic_scan_text messages :
  JsString.is_empty (JsString.trim (ShrikeAnthropic._extractUserContent messages)) = false ->
  ShrikeAnthropic._scanMessages w c messages log =
    _remoteScan w c (ShrikeAnthropic._extractUserContent messages) log.
Proof. intros Hb. unfold ShrikeAnthropic._scanMessages. now rewrite Hb. Qed.

Lemma gemini_scan_blank contents :
  JsString.trim (ShrikeGemini._extractContent contents) = "" ->
  ShrikeGemini._scanContent w c contents log =
    (Return (safe_verdict "No text content to scan"), log).
Proof. intros Hb. unfold ShrikeGemini._scanContent. now rewrite Hb. Qed.

Lemma gemini_scan_text contents :
  JsString.is_empty (JsString.trim (ShrikeGemini._extractContent contents)) = false ->
  ShrikeGemini._scanContent w c contents log =
    _remoteScan w c (ShrikeGemini._extractContent contents) log.
Proof. intros Hb. unfold ShrikeGemini._scanContent. now rewrite Hb. Qed.




(** Each entry point, in terms of its scan step. *)
Lemma openai_create_run params :
  ShrikeOpenAI.create w c params log =
    match ShrikeOpenAI._scanMessages w c (messages params) log with
    | (Return scanResult, l) =>
        if unsafe scanResult then
          (Throw (blocked
                    ("Request blocked: " +:+
                       ToString (Js.or (Js.prop scanResult "reason")
                                       (JStr "Security threat detected")))
                    scanResult), l)
        else (provider w (OpenAIChatCompletionsCreate params),
              l ++ [EvProvider (OpenAIChatCompletionsCreate params)])
    | (Throw e, l) => (Throw e, l)
    end.
Proof.
  unfold ShrikeOpenAI.create. run_monad.
  destruct (ShrikeOpenAI._scanMessages w c (messages params) log) as [[v|e] l];
    [|reflexivity].
  now destruct (unsafe v).
Qed.

Lemma anthropic_create_run params :
  ShrikeAnthropic.create w c params log =
    let call :=
      AnthropicMessagesCreate
        {| messages := messages params; stream := JBool false; other := other params |} in
    match ShrikeAnthropic._scanMessages w c (messages params) log with
    | (Return scanResult, l) =>
        if unsafe scanResult then
          (Throw (blocked
                    ("Request blocked: " +:+
                       ToString (Js.or (Js.prop scanResult "reason")
                                       (JStr "Security threat detected")))
                    scanResult), l)
        else (provider w call, l ++ [EvProvider call])
    | (Throw e, l) => (Throw e, l)
    end.
Proof.
  unfold ShrikeAnthropic.create. run_monad.
  destruct (ShrikeAnthropic._scanMessages w c (messages params) log) as [[v|e] l];
    [|reflexivity].
  now destruct (unsafe v).
Qed.

Lemma gemini_guarded_run contents call :
  ShrikeGemini.guarded w c contents call log =
    match ShrikeGemini._scanContent w c contents log with
    | (Return scanResult, l) =>
        if unsafe scanResult then
          (Throw (blocked
                    (ToString (Js.or (Js.prop scanResult "reason")
                                     (JStr "Request blocked by Shrike")))
                    scanResult), l)
        else (provider w (call contents), l ++ [EvProvider (call contents)])
    | (Throw e, l) => (Throw e, l)
    end.
Proof.
  unfold ShrikeGemini.guarded. run_monad.
  destruct (ShrikeGemini._scanContent w c contents log) as [[v|e] l];
    [|reflexivity].
  now destruct (unsafe v).
Qed.

End Entry.

(** ** Blocking *)

Section Blocking.
Context `{Engine}.
Import Wrapper.



End Blocking.



Lemma sanitize_defaults_to_safe_witness :
  Js.prop unflagged_payload "safe" <> JBool false
  /\ @Sanitizer.sanitizeScanResponse sample_engine unflagged_payload
     = Return {[ "safe" := JBool true; "reason" := JStr "No threats detected" ]}
  /\ Js.prop tautology_payload "safe" = JBool false
  /\ @Sanitizer.sanitizeScanResponse sample_engine tautology_payload
     = Return tautology_verdict
  /\ tautology_verdict !! "safe" = Some (JBool false).
Proof.
  assert (Js.prop unflagged_payload "safe" <> JBool false) as Hsafe
    by (vm_compute; discriminate).
  assert (Js.prop tautology_payload "safe" = JBool false) as Hunsafe
    by reflexivity.
  assert (@Sanitizer.sanitizeScanResponse sample_engine tautology_payload
          = Return tautology_verdict) as Hout by (vm_compute; reflexivity).
  split; [exact Hsafe|].
  split.
  { exact (proj1 (@sanitize_defaults_to_safe sample_engine unflagged_payload) Hsafe). }
  split; [exact Hunsafe|]. split; [exact Hout|].
  exact (proj1 (proj2 (@sanitize_defaults_to_safe sample_engine tautology_payload))
           Hunsafe tautology_verdict Hout).
Defined.

Lemma confidence_is_bucketed_witness :
  @Sanitizer.sanitizeScanResponse sample_engine tautology_payload
    = Return tautology_verdict
  /\ tautology_verdict !! "safe" = Some (JBool false)
  /\ tautology_verdict !! "confidence" = Some (JStr "high").
Proof.
  assert (@Sanitizer.sanitizeScanResponse sample_engine tautology_payload
          = Return tautology_verdict) as Hout by (vm_compute; reflexivity).
  assert (tautology_verdict !! "safe" = Some (JBool false)) as Hsafe by reflexivity.
  split; [exact Hout|]. split; [exact Hsafe|].
  destruct (@confidence_is_bucketed sample_engine
              tautology_payload tautology_verdict Hout Hsafe)
    as ((conf & Hconf & _ & Hcase) & _).
  rewrite Hconf. f_equal. f_equal.
  change (Js.prop tautology_payload "confidence") with (JNum 0.97%float) in Hcase.
  destruct Hcase as (Hhigh & _). apply Hhigh. reflexivity.
Defined.

(** ** Requests in the log *)

Section Requests.
Context `{Engine}.
Import Wrapper.

Lemma fetches_after_request (l tail : list Event) (r : Request) :
  fetches tail = [] -> fetches (l ++ EvFetch r :: tail) = fetches l ++ [r].
Proof.
  intros Ht. unfold fetches in *. rewrite omap_app. cbn. now rewrite Ht.
Qed.

Lemma specialized_log (w : World) (c : Client) (log : list Event)
    (p : Payload) (label : string) :
  snd (ShrikeOpenAI.specialized_scan w c p label log)
    = log ++ [EvFetch (scan_request c "/api/scan/specialized" p)].
Proof.
  unfold ShrikeOpenAI.specialized_scan. run_monad.
  destruct (fetch w (scan_request c "/api/scan/specialized" p)) as [e|r].
  - destruct e; destruct (fail_open c); reflexivity.
  - destruct (ok r); cbn [negb].
    + destruct (body r) as [m|v]; [destruct (fail_open c); reflexivity|].
      cbn. destruct (sanitize_parsed v) as [verdict|e]; [reflexivity|].
      destruct e; destruct (fail_open c); reflexivity.
    + destruct (fail_open c); reflexivity.
Qed.

End Requests.

(** ** The size limit *)

Section SizeLimit.
Context `{Engine}.

Lemma replicate_length n ch : JsString.length (JsString.replicate n ch) = Z.of_nat n.
Proof.
  unfold JsString.length. f_equal.
  induction n as [|n IH]; [reflexivity|]. cbn. now rewrite IH.
Qed.

Lemma oversized_prompt_length : JsString.length oversized_prompt = 102401.
Proof. unfold oversized_prompt. rewrite replicate_length. now rewrite Z2Nat.id. Qed.

Lemma oversized_prompt_text :
  exists r, oversized_prompt = String "a" r.
Proof.
  unfold oversized_prompt.
  replace (Z.to_nat 102401) with (S (Z.to_nat 102400)) by lia.
  eexists; reflexivity.
Qed.

Lemma too_large_fields what noun size :
  ScanClient.too_large what noun size !! "safe" = Some (JBool false)
  /\ ScanClient.too_large what noun size !! "threat_type"
     = Some (JStr "size_limit_exceeded").
Proof. split; reflexivity. Qed.

(** C4, as the code has it. The size guard is [ScanClient]'s: when the
    prompt and context of [scan], the query of [scanSql], or the path and
    content of [scanFile] have more than 102400 code units, the method
    returns a verdict made locally, with [safe] false and threat type
    [size_limit_exceeded], and sends nothing. The scan step of the wrappers
    has no such guard: [_remoteScan], and [scanSql] and [scanFile] of
    [ShrikeOpenAI], send their request whatever the size. *)
Theorem scan_client_refuses_oversized_input
    (w : World) (c : ScanClient.Client) (log : list Event) :
  ScanClient.MAX_CONTENT_SIZE = 102400
  /\ (forall prompt context,
         ScanClient.MAX_CONTENT_SIZE
           < JsString.length prompt + ScanClient.optional_length context ->
         exists verdict,
           ScanClient.scan w c prompt context log = (Return verdict, log)
           /\ verdict !! "safe" = Some (JBool false)
           /\ verdict !! "threat_type" = Some (JStr "size_limit_exceeded"))
  /\ (forall query database allowDestructive,
         ScanClient.MAX_CONTENT_SIZE < JsString.length query ->
         exists verdict,
           ScanClient.scanSql w c query database allowDestructive log
             = (Return verdict, log)
           /\ verdict !! "safe" = Some (JBool false)
           /\ verdict !! "threat_type" = Some (JStr "size_limit_exceeded"))
  /\ (forall path content,
         ScanClient.MAX_CONTENT_SIZE
           < JsString.length path + ScanClient.optional_length content ->
         exists verdict,
           ScanClient.scanFile w c path content log = (Return verdict, log)
           /\ verdict !! "safe" = Some (JBool false)
           /\ verdict !! "threat_type" = Some (JStr "size_limit_exceeded"))
  /\ (forall (wc : Wrapper.Client) prompt,
         fetches (snd (Wrapper._remoteScan w wc prompt log))
           = fetches log ++ [Wrapper.prompt_request wc prompt])
  /\ (forall (wc : Wrapper.Client) query database allowDestructive,
         snd (ShrikeOpenAI.scanSql w wc query database allowDestructive log)
           = log ++ [EvFetch (sql_request wc query database allowDestructive)])
  /\ (forall (wc : Wrapper.Client) path content,
         snd (ShrikeOpenAI.scanFile w wc path content log)
           = log ++ [EvFetch (file_request wc path content)]).
Proof.
  split; [reflexivity|].
  split; [|split; [|split; [|split; [|split]]]].
  4: { intros wc prompt.
       destruct (remoteScan_log w wc prompt log) as (tail & -> & Hf & _).
       now apply fetches_after_request. }
  4: { intros wc query database allowDestructive.
       unfold ShrikeOpenAI.scanSql. now rewrite specialized_log. }
  4: { intros wc path content. unfold ShrikeOpenAI.scanFile. cbv zeta.
       rewrite specialized_log. unfold file_request.
       destruct content as [text|]; [|reflexivity].
       unfold Wrapper.string_or.
       destruct (JsString.is_empty text) eqn:Ht; cbv beta iota.
       - reflexivity.
       - now rewrite Ht. }
  - intros prompt context Hbig. apply Z.ltb_lt in Hbig.
    unfold ScanClient.scan. cbv zeta. rewrite Hbig.
    eexists. split; [reflexivity|]. apply too_large_fields.
  - intros query database allowDestructive Hbig. apply Z.ltb_lt in Hbig.
    unfold ScanClient.scanSql. rewrite Hbig.
    eexists. split; [reflexivity|]. apply too_large_fields.
  - intros path content Hbig. apply Z.ltb_lt in Hbig.
    unfold ScanClient.scanFile. cbv zeta. rewrite Hbig.
    eexists. split; [reflexivity|]. apply too_large_fields.
Qed.

End SizeLimit.

Lemma scan_client_refuses_oversized_input_witness :
  ScanClient.MAX_CONTENT_SIZE
    < JsString.length oversized_prompt + ScanClient.optional_length None
  /\ exists verdict,
       @ScanClient.scan sample_engine calm_world sample_scan_client
         oversized_prompt None [] = (Return verdict, [])
       /\ verdict !! "safe" = Some (JBool false)
       /\ verdict !! "threat_type" = Some (JStr "size_limit_exceeded").
Proof.
  assert (ScanClient.MAX_CONTENT_SIZE
            < JsString.length oversized_prompt + ScanClient.optional_length None)
    as Hbig.
  { rewrite oversized_prompt_length. reflexivity. }
  split; [exact Hbig|].
  destruct (@scan_client_refuses_oversized_input sample_engine
              calm_world sample_scan_client []) as (_ & Hscan & _).
  exact (Hscan oversized_prompt None Hbig).
Defined.

(** C4 as stated fails for the wrappers: their scan step has no size guard,
    and a prompt of 102401 code units is sent to the scan service. *)
Lemma oversized_prompt_is_sent :
  ScanClient.MAX_CONTENT_SIZE < JsString.length oversized_prompt
  /\ @ShrikeOpenAI._scanMessages sample_engine calm_world (sample_client "open")
       [user_says oversized_prompt] []
     = (Return {[ "safe" := JBool true; "reason" := JStr "" ]},
        [EvFetch (Wrapper.prompt_request (sample_client "open") oversized_prompt)]).
Proof.
  split; [rewrite oversized_prompt_length; reflexivity|].
  destruct oversized_prompt_text as (r & Htext).
  assert (ShrikeOpenAI._extractUserContent [user_says oversized_prompt]
          = oversized_prompt) as Hextract.
  { rewrite Htext. reflexivity. }
  rewrite (@openai_scan_text sample_engine); rewrite Hextract.
  - now apply (@remoteScan_sanitized sample_engine calm_world (sample_client "open")
                 oversized_prompt []
                 {| status := 200;
                    body := BodyParsed (ParsedObject {[ "safe" := JBool true ]}) |}
                 (ParsedObject {[ "safe" := JBool true ]})).
  - rewrite Htext. now apply trim_starts_with_text.
Qed.

(** ** Nothing to scan *)

Section Blank.
Context `{Engine}.
Import Wrapper.

Lemma textless_items_extract items :
  forallb textless items = true -> ShrikeGemini.extract_items items = "".
Proof.
  intros Hall. unfold ShrikeGemini.extract_items.
  replace (flat_map _ items) with (@nil string); [reflexivity|].
  induction items as [|item rest IH]; [reflexivity|].
  cbn in Hall. apply andb_prop in Hall as [Hitem Hrest].
  cbn [flat_map]. rewrite <- (IH Hrest), app_nil_r.
  destruct item as [s|[t|]]; cbn in Hitem; [discriminate| |reflexivity].
  now rewrite Hitem.
Qed.

(** C5, as the code has it. When the extracted text is empty or white space
    only, the scan step returns a safe verdict and sends nothing; its reason
    is [No user content to scan] in [ShrikeOpenAI] and [ShrikeAnthropic] and
    [No text content to scan] in [ShrikeGemini]. A message list without a
    user span extracts to the empty string, and so does a Gemini part list
    (bare or under [parts]) none of whose items carries text. *)
Theorem blank_content_is_not_scanned (w : World) (c : Client) (log : list Event) :
  (forall messages,
      JsString.trim (ShrikeOpenAI._extractUserContent messages) = "" ->
      ShrikeOpenAI._scanMessages w c messages log =
        (Return {[ "safe" := JBool true; "reason" := JStr "No user content to scan" ]},
         log))
  /\ (forall messages,
         JsString.trim (ShrikeAnthropic._extractUserContent messages) = "" ->
         ShrikeAnthropic._scanMessages w c messages log =
           (Return {[ "safe" := JBool true; "reason" := JStr "No user content to scan" ]},
            log))
  /\ (forall contents,
         JsString.trim (ShrikeGemini._extractContent contents) = "" ->
         ShrikeGemini._scanContent w c contents log =
           (Return {[ "safe" := JBool true; "reason" := JStr "No text content to scan" ]},
            log))
  /\ (forall messages,
         user_spans messages = [] ->
         ShrikeOpenAI._extractUserContent messages = ""
         /\ ShrikeAnthropic._extractUserContent messages = "")
  /\ (forall items,
         forallb textless items = true ->
         ShrikeGemini._extractContent (GArray items) = ""
         /\ ShrikeGemini._extractContent (GObject None (Some items)) = "").
Proof.
  split; [intros; now apply openai_scan_blank|].
  split; [intros; now apply anthropic_scan_blank|].
  split; [intros; now apply gemini_scan_blank|].
  split.
  - intros messages Hnone.
    rewrite openai_extract_spans, anthropic_extract_spans, Hnone. now split.
  - intros items Hall. cbn. now rewrite textless_items_extract.
Qed.

End Blank.

Lemma blank_content_is_not_scanned_witness :
  JsString.trim (ShrikeOpenAI._extractUserContent [system_says "You are helpful"]) = ""
  /\ @ShrikeOpenAI._scanMessages sample_engine stalled_world (sample_client "closed")
       [system_says "You are helpful"] []
     = (Return {[ "safe" := JBool true; "reason" := JStr "No user content to scan" ]}, [])
  /\ JsString.trim (ShrikeGemini._extractContent (GString "   ")) = ""
  /\ @ShrikeGemini._scanContent sample_engine stalled_world (sample_client "closed")
       (GString "   ") []
     = (Return {[ "safe" := JBool true; "reason" := JStr "No text content to scan" ]}, [])
  /\ user_spans [system_says "You are helpful"] = []
  /\ ShrikeAnthropic._extractUserContent [system_says "You are helpful"] = ""
  /\ forallb textless [PartObject None; PartObject (Some "")] = true
  /\ ShrikeGemini._extractContent
       (GObject None (Some [PartObject None; PartObject (Some "")])) = "".
Proof.
  destruct (@blank_content_is_not_scanned sample_engine
              stalled_world (sample_client "closed") [])
    as (Hopenai & _ & Hgemini & Hspans & Hitems).
  assert (JsString.trim
            (ShrikeOpenAI._extractUserContent [system_says "You are helpful"]) = "")
    as Hblank by reflexivity.
  assert (JsString.trim (ShrikeGemini._extractContent (GString "   ")) = "")
    as Hspace by reflexivity.
  assert (user_spans [system_says "You are helpful"] = []) as Hnone by reflexivity.
  assert (forallb textless [PartObject None; PartObject (Some "")] = true)
    as Htextless by reflexivity.
  split; [exact Hblank|]. split; [exact (Hopenai _ Hblank)|].
  split; [exact Hspace|]. split; [exact (Hgemini _ Hspace)|].
  split; [exact Hnone|]. split; [exact (proj2 (Hspans _ Hnone))|].
  split; [exact Htextless|]. exact (proj2 (Hitems _ Htextless)).
Defined.

(** C5 as stated fails for Gemini: the reason of its trivially safe verdict
    is another one, and an object with neither text nor parts does not
    extract to the empty string. *)
Lemma gemini_blank_verdict_differs :
  @ShrikeGemini._scanContent sample_engine stalled_world (sample_client "open")
    (GString "") []
  = (Return {[ "safe" := JBool true; "reason" := JStr "No text content to scan" ]}, [])
  /\ ({[ "safe" := JBool true; "reason" := JStr "No text content to scan" ]} : gmap string JsValue)
     <> {[ "safe" := JBool true; "reason" := JStr "No user content to scan" ]}
  /\ ShrikeGemini._extractContent (GObject None None) = "[object Object]"
  /\ ShrikeGemini._extractContent (GObject None None) <> "".
Proof.
  split; [reflexivity|]. split; [|split; [reflexivity|discriminate]].
  intros Heq. apply (f_equal (fun m => m !! "reason")) in Heq.
  vm_compute in Heq. discriminate.
Qed.

(** ** The fail mode *)

Section FailMode.
Context `{Engine}.
Import Wrapper.

Variables (w : World) (c : Client) (log : list Event).

Lemma mode_open : _failMode c = JStr "open" -> fail_open c = true.
Proof. unfold fail_open. now intros ->. Qed.

Lemma mode_closed : _failMode c = JStr "closed" -> fail_open c = false.
Proof. unfold fail_open. now intros ->. Qed.

Lemma catch_block_timeout e l :
  is_scan_error e = false ->
  JsString.includes "abort" (error_message e) = true ->
  catch_block c e l =
    if fail_open c
    then (Return (safe_verdict "Scan timeout, failing open"), l ++ [timeout_warning])
    else (Throw (ErrShrikeScan "Scan request timed out and fail_mode is 'closed'"), l).
Proof.
  intros He Hab. unfold catch_block.
  destruct e; try discriminate;
    cbv beta iota zeta delta [error_message] in Hab |- *; rewrite Hab;
    destruct (fail_open c); reflexivity.
Qed.

Lemma remoteScan_timeout prompt e :
  fetch w (prompt_request c prompt) = FetchRejected e ->
  is_scan_error e = false ->
  JsString.includes "abort" (error_message e) = true ->
  _remoteScan w c prompt log =
    if fail_open c
    then (Return (safe_verdict "Scan timeout, failing open"),
          log ++ [EvFetch (prompt_request c prompt); timeout_warning])
    else (Throw (ErrShrikeScan "Scan request timed out and fail_mode is 'closed'"),
          log ++ [EvFetch (prompt_request c prompt)]).
Proof.
  intros Hf He Hab. rewrite (remoteScan_rejected w c prompt log e Hf).
  rewrite (catch_block_timeout e _ He Hab), <- app_assoc. reflexivity.
Qed.

Lemma provider_calls_fetch (l : list Event) (r : Request) :
  provider_calls (l ++ [EvFetch r]) = provider_calls l.
Proof. unfold provider_calls. rewrite omap_app. apply app_nil_r. Qed.

Lemma sanitize_parsed_throws v e :
  sanitize_parsed v = Throw e -> is_scan_error e = false.
Proof.
  assert (forall raw, Sanitizer.sanitizeScanResponse raw = Throw e ->
                      is_scan_error e = false) as Hraw.
  { intros raw Hs.
    destruct (Js.is_false (Js.prop raw "safe")) eqn:Hsafe.
    - apply is_false_spec in Hsafe.
      destruct (Sanitizer.normalizeThreatType (Js.prop raw "threat_type"))
        as [tt|e'] eqn:Hn.
      + rewrite (unsafe_branch raw tt Hsafe Hn) in Hs. discriminate.
      + rewrite (unsafe_throws raw e' Hsafe Hn) in Hs. injection Hs as ->.
        apply normalizeThreatType_throws in Hn as (-> & _). reflexivity.
    - rewrite safe_branch in Hs; [discriminate|].
      intros Heq. apply is_false_spec in Heq. congruence. }
  destruct v as [| |raw]; cbn; [intros [= <-]; reflexivity|apply Hraw..].
Qed.

Lemma remoteScan_thrown prompt e :
  scan_throws (fetch w (prompt_request c prompt)) = Some e ->
  _remoteScan w c prompt log =
    catch_block c e (log ++ [EvFetch (prompt_request c prompt)]).
Proof.
  unfold scan_throws.
  destruct (fetch w (prompt_request c prompt)) as [e'|r] eqn:Hf.
  - intros [= ->]. now apply remoteScan_rejected.
  - destruct (ok r) eqn:Hok; [|discriminate].
    destruct (body r) as [message|v] eqn:Hb.
    + intros [= <-]. now apply (remoteScan_bad_json w c prompt log r message).
    + destruct (sanitize_parsed v) as [verdict|e'] eqn:Hs; [discriminate|].
      intros [= ->]. now apply (remoteScan_sanitizer_throws w c prompt log r v e).
Qed.

Lemma scan_throws_not_scan_error (o : FetchOutcome) e :
  scan_throws o = Some e ->
  (forall e', o = FetchRejected e' -> is_scan_error e' = false) ->
  is_scan_error e = false.
Proof.
  unfold scan_throws. destruct o as [e'|r].
  - intros [= ->] Hrej. now apply Hrej.
  - destruct (ok r); [|discriminate].
    destruct (body r) as [message|v]; [now intros [= <-]|].
    destruct (sanitize_parsed v) as [verdict|e'] eqn:Hs; [discriminate|].
    intros [= ->] _. exact (sanitize_parsed_throws v e Hs).
Qed.

Lemma catch_block_other e l :
  is_scan_error e = false ->
  JsString.includes "abort" (error_message e) = false ->
  catch_block c e l =
    if fail_open c
    then (Return (safe_verdict ("Scan error: " +:+ error_message e)), l)
    else (Throw (ErrShrikeScan ("Scan failed: " +:+ error_message e)), l).
Proof.
  intros He Hab. unfold catch_block.
  destruct e; try discriminate;
    cbv beta iota zeta delta [error_message] in Hab |- *; rewrite Hab;
    destruct (fail_open c); reflexivity.
Qed.

Lemma provider_calls_request_tail (l tail : list Event) (r : Request) :
  provider_calls tail = [] -> provider_calls (l ++ EvFetch r :: tail) = provider_calls l.
Proof.
  intros Ht. unfold provider_calls in *. rewrite omap_app. cbn.
  rewrite Ht. apply app_nil_r.
Qed.

(** Fail-open: every failure that is not a rejection by a [ShrikeScanError]
    ends in a safe verdict; the log gets the request and at most a warning. *)
Lemma remoteScan_open_failure prompt :
  fail_open c = true ->
  infrastructure_failure (fetch w (prompt_request c prompt)) = true ->
  (forall e, fetch w (prompt_request c prompt) = FetchRejected e ->
             is_scan_error e = false) ->
  exists reason l,
    _remoteScan w c prompt log = (Return (safe_verdict reason), l)
    /\ provider_calls l = provider_calls log.
Proof.
  intros Hopen Hfail Hrej.
  destruct (scan_throws (fetch w (prompt_request c prompt))) as [e|] eqn:Hthrows.
  - rewrite (remoteScan_thrown prompt e Hthrows).
    pose proof (scan_throws_not_scan_error _ e Hthrows Hrej) as He.
    destruct (catch_block_open c e (log ++ [EvFetch (prompt_request c prompt)])
                Hopen He) as (reason & tail & -> & _ & Hp & _).
    exists reason. eexists. split; [reflexivity|].
    rewrite <- app_assoc. now apply provider_calls_request_tail.
  - unfold infrastructure_failure in Hfail. unfold scan_throws in Hthrows.
    destruct (fetch w (prompt_request c prompt)) as [e|r] eqn:Hf; [discriminate|].
    destruct (ok r) eqn:Hok.
    + destruct (body r) as [message|v]; [discriminate|].
      destruct (sanitize_parsed v); discriminate.
    + rewrite (remoteScan_not_ok w c prompt log r Hf Hok), Hopen.
      eexists _, _. split; [reflexivity|]. apply provider_calls_fetch.
Qed.

Lemma scan_client_failures (sc : ScanClient.Client)
    (prompt : string) (context : option string) :
  JsString.length prompt + ScanClient.optional_length context
    <= ScanClient.MAX_CONTENT_SIZE ->
  (forall e,
      fetch w (scan_client_request sc prompt context) = FetchRejected e ->
      ScanClient.scan w sc prompt context log =
        (Throw e, log ++ [EvFetch (scan_client_request sc prompt context)]))
  /\ (forall r,
         fetch w (scan_client_request sc prompt context) = FetchResponse r ->
         ok r = false ->
         ScanClient.scan w sc prompt context log =
           (Throw (ErrError "Error"
                     ("Scan API returned error: " +:+ JsString.of_Z (status r))),
            log ++ [EvFetch (scan_client_request sc prompt context)])).
Proof.
  intros Hfit. apply Z.ltb_ge in Hfit.
  assert (ScanClient.scan w sc prompt context log =
            ScanClient.post w sc "/scan"
              (payload (scan_client_request sc prompt context)) "Scan API" log)
    as ->.
  { unfold ScanClient.scan. cbv zeta. now rewrite Hfit. }
  unfold ScanClient.post. run_monad.
  change {| url := ScanClient.endpoint sc +:+ "/scan";
            bearer := ScanClient.apiKey sc;
            payload := payload (scan_client_request sc prompt context) |}
    with (scan_client_request sc prompt context).
  split.
  - intros e ->. reflexivity.
  - intros r -> ->. reflexivity.
Qed.

(** C3, as the code has it. The scan transport of the wrappers
    ([_remoteScan]) resolves every failure by the fail mode. A response that
    is not ok gives, under [open], the safe verdict with reason
    [Scan API error: <status>] and, under [closed], a [ShrikeScanError]
    whose message ends in the status. A thrown failure (a rejected request,
    an unreadable body, an answer the sanitizer throws on) whose message
    contains [abort] gives, under [open], a safe verdict whose reason
    contains [timeout] and, under [closed], a [ShrikeScanError]; any other
    thrown failure gives the safe verdict with reason [Scan error: <message>]
    or the [ShrikeScanError] [Scan failed: <message>]. After a failure, under
    [open] every generation call goes on to its provider, which gets the
    caller's request as it is from [ShrikeOpenAI] and [ShrikeGemini] and
    with [stream] set to [false] from [ShrikeAnthropic]; under [closed] it
    throws the [ShrikeScanError] and the provider is not invoked.
    [ScanClient.scan] has no fail mode: a rejected request is thrown on as
    it is, and a response that is not ok becomes a plain [Error]. *)
Theorem scan_failures_follow_the_fail_mode :
  (forall prompt r,
      fetch w (prompt_request c prompt) = FetchResponse r -> ok r = false ->
      (_failMode c = JStr "open" ->
       _remoteScan w c prompt log =
         (Return {[ "safe" := JBool true;
                    "reason" := JStr ("Scan API error: " +:+ JsString.of_Z (status r)) ]},
          log ++ [EvFetch (prompt_request c prompt)]))
      /\ (_failMode c = JStr "closed" ->
          _remoteScan w c prompt log =
            (Throw (ErrShrikeScan
                      ("Scan API returned error: " +:+ JsString.of_Z (status r))),
             log ++ [EvFetch (prompt_request c prompt)])))
  /\ (forall prompt e,
         scan_throws (fetch w (prompt_request c prompt)) = Some e ->
         is_scan_error e = false ->
         (JsString.includes "abort" (error_message e) = true ->
          (_failMode c = JStr "open" ->
           exists reason,
             _remoteScan w c prompt log =
               (Return {[ "safe" := JBool true; "reason" := JStr reason ]},
                log ++ [EvFetch (prompt_request c prompt); timeout_warning])
             /\ JsString.includes "timeout" reason = true)
          /\ (_failMode c = JStr "closed" ->
              _remoteScan w c prompt log =
                (Throw (ErrShrikeScan "Scan request timed out and fail_mode is 'closed'"),
                 log ++ [EvFetch (prompt_request c prompt)])))
         /\ (JsString.includes "abort" (error_message e) = false ->
             (_failMode c = JStr "open" ->
              _remoteScan w c prompt log =
                (Return {[ "safe" := JBool true;
                           "reason" := JStr ("Scan error: " +:+ error_message e) ]},
                 log ++ [EvFetch (prompt_request c prompt)]))
             /\ (_failMode c = JStr "closed" ->
                 _remoteScan w c prompt log =
                   (Throw (ErrShrikeScan ("Scan failed: " +:+ error_message e)),
                    log ++ [EvFetch (prompt_request c prompt)]))))
  /\ (forall params,
         JsString.is_empty
           (JsString.trim (ShrikeOpenAI._extractUserContent (messages params))) = false ->
         infrastructure_failure
           (fetch w (prompt_request c
                       (ShrikeOpenAI._extractUserContent (messages params)))) = true ->
         (_failMode c = JStr "open" ->
          (forall e,
              fetch w (prompt_request c
                         (ShrikeOpenAI._extractUserContent (messages params)))
                = FetchRejected e -> is_scan_error e = false) ->
          exists l,
            ShrikeOpenAI.create w c params log =
              (provider w (OpenAIChatCompletionsCreate params),
               l ++ [EvProvider (OpenAIChatCompletionsCreate params)])
            /\ provider_calls l = provider_calls log)
         /\ (_failMode c = JStr "closed" ->
             exists m l,
               ShrikeOpenAI.create w c params log = (Throw (ErrShrikeScan m), l)
               /\ provider_calls l = provider_calls log))
  /\ (forall params,
         JsString.is_empty
           (JsString.trim (ShrikeAnthropic._extractUserContent (messages params))) = false ->
         infrastructure_failure
           (fetch w (prompt_request c
                       (ShrikeAnthropic._extractUserContent (messages params)))) = true ->
         (_failMode c = JStr "open" ->
          (forall e,
              fetch w (prompt_request c
                         (ShrikeAnthropic._extractUserContent (messages params)))
                = FetchRejected e -> is_scan_error e = false) ->
          exists l,
            ShrikeAnthropic.create w c params log =
              (provider w
                 (AnthropicMessagesCreate
                    {| messages := messages params;
                       stream := JBool false;
                       other := other params |}),
               l ++ [EvProvider
                       (AnthropicMessagesCreate
                          {| messages := messages params;
                             stream := JBool false;
                             other := other params |})])
            /\ provider_calls l = provider_calls log)
         /\ (_failMode c = JStr "closed" ->
             exists m l,
               ShrikeAnthropic.create w c params log = (Throw (ErrShrikeScan m), l)
               /\ provider_calls l = provider_calls log))
  /\ (forall contents call,
         JsString.is_empty
           (JsString.trim (ShrikeGemini._extractContent contents)) = false ->
         infrastructure_failure
           (fetch w (prompt_request c (ShrikeGemini._extractContent contents))) = true ->
         (_failMode c = JStr "open" ->
          (forall e,
              fetch w (prompt_request c (ShrikeGemini._extractContent contents))
                = FetchRejected e -> is_scan_error e = false) ->
          exists l,
            ShrikeGemini.guarded w c contents call log =
              (provider w (call contents), l ++ [EvProvider (call contents)])
            /\ provider_calls l = provider_calls log)
         /\ (_failMode c = JStr "closed" ->
             exists m l,
               ShrikeGemini.guarded w c contents call log = (Throw (ErrShrikeScan m), l)
               /\ provider_calls l = provider_calls log))
  /\ (forall (sc : ScanClient.Client) prompt context,
         JsString.length prompt + ScanClient.optional_length context
           <= ScanClient.MAX_CONTENT_SIZE ->
         (forall e,
             fetch w (scan_client_request sc prompt context) = FetchRejected e ->
             ScanClient.scan w sc prompt context log =
               (Throw e, log ++ [EvFetch (scan_client_request sc prompt context)]))
         /\ (forall r,
                fetch w (scan_client_request sc prompt context) = FetchResponse r ->
                ok r = false ->
                ScanClient.scan w sc prompt context log =
                  (Throw (ErrError "Error"
                            ("Scan API returned error: " +:+ JsString.of_Z (status r))),
                   log ++ [EvFetch (scan_client_request sc prompt context)]))).
Proof.
  split; [|split; [|split; [|split; [|split]]]].
  - intros prompt r Hf Hok. rewrite (remoteScan_not_ok w c prompt log r Hf Hok).
    split; intros Hmode.
    + now rewrite (mode_open Hmode).
    + now rewrite (mode_closed Hmode).
  - intros prompt e Hthrows He. rewrite (remoteScan_thrown prompt e Hthrows).
    split; intros Hab.
    + rewrite (catch_block_timeout e _ He Hab), <- app_assoc.
      split; intros Hmode.
      * rewrite (mode_open Hmode). eexists. split; reflexivity.
      * now rewrite (mode_closed Hmode).
    + rewrite (catch_block_other e _ He Hab).
      split; intros Hmode.
      * now rewrite (mode_open Hmode).
      * now rewrite (mode_closed Hmode).
  - intros params Htext Hfail.
    rewrite openai_create_run, (openai_scan_text w c log _ Htext).
    unfold ShrikeOpenAI._remoteScan. split.
    + intros Hmode Hrej.
      destruct (remoteScan_open_failure _ (mode_open Hmode) Hfail Hrej)
        as (reason & l & -> & Hp).
      exists l. now split.
    + intros Hmode.
      destruct (remoteScan_closed_failure w c _ log (mode_closed Hmode) Hfail)
        as (m & ->).
      eexists _, _. split; [reflexivity|]. apply provider_calls_fetch.
  - intros params Htext Hfail.
    rewrite anthropic_create_run. cbv zeta.
    rewrite (anthropic_scan_text w c log _ Htext).
    unfold ShrikeAnthropic._remoteScan. split.
    + intros Hmode Hrej.
      destruct (remoteScan_open_failure _ (mode_open Hmode) Hfail Hrej)
        as (reason & l & -> & Hp).
      exists l. now split.
    + intros Hmode.
      destruct (remoteScan_closed_failure w c _ log (mode_closed Hmode) Hfail)
        as (m & ->).
      eexists _, _. split; [reflexivity|]. apply provider_calls_fetch.
  - intros contents call Htext Hfail.
    rewrite gemini_guarded_run, (gemini_scan_text w c log _ Htext).
    unfold ShrikeGemini._remoteScan. split.
    + intros Hmode Hrej.
      destruct (remoteScan_open_failure _ (mode_open Hmode) Hfail Hrej)
        as (reason & l & -> & Hp).
      exists l. now split.
    + intros Hmode.
      destruct (remoteScan_closed_failure w c _ log (mode_closed Hmode) Hfail)
        as (m & ->).
      eexists _, _. split; [reflexivity|]. apply provider_calls_fetch.
  - intros sc prompt context Hfit. now apply scan_client_failures.
Qed.

End FailMode.

Lemma scan_failures_follow_the_fail_mode_witness :
  @Wrapper._remoteScan sample_engine failing_world (sample_client "open") "Hello!" []
    = (Return {[ "safe" := JBool true; "reason" := JStr "Scan API error: 500" ]},
       [EvFetch (Wrapper.prompt_request (sample_client "open") "Hello!")])
  /\ @Wrapper._remoteScan sample_engine failing_world (sample_client "closed") "Hello!" []
     = (Throw (ErrShrikeScan "Scan API returned error: 500"),
        [EvFetch (Wrapper.prompt_request (sample_client "closed") "Hello!")])
  /\ (exists reason,
         @Wrapper._remoteScan sample_engine stalled_world (sample_client "open")
           "Hello!" []
         = (Return {[ "safe" := JBool true; "reason" := JStr reason ]},
            [EvFetch (Wrapper.prompt_request (sample_client "open") "Hello!");
             timeout_warning])
         /\ JsString.includes "timeout" reason = true)
  /\ @Wrapper._remoteScan sample_engine unreachable_world (sample_client "open")
       "Hello!" []
     = (Return {[ "safe" := JBool true; "reason" := JStr "Scan error: fetch failed" ]},
        [EvFetch (Wrapper.prompt_request (sample_client "open") "Hello!")])
  /\ @Wrapper._remoteScan sample_engine unreachable_world (sample_client "closed")
       "Hello!" []
     = (Throw (ErrShrikeScan "Scan failed: fetch failed"),
        [EvFetch (Wrapper.prompt_request (sample_client "closed") "Hello!")])
  /\ (exists l,
         @ShrikeOpenAI.create sample_engine stalled_world (sample_client "open")
           (sample_params hello) []
         = (Return JNull,
            l ++ [EvProvider (OpenAIChatCompletionsCreate (sample_params hello))])
         /\ provider_calls l = [])
  /\ (exists l,
         @ShrikeAnthropic.create sample_engine stalled_world (sample_client "open")
           streaming_params []
         = (Return JNull,
            l ++ [EvProvider
                    (AnthropicMessagesCreate
                       {| messages := hello; stream := JBool false; other := [] |})])
         /\ provider_calls l = [])
  /\ (exists m l,
         @ShrikeOpenAI.create sample_engine stalled_world (sample_client "closed")
           (sample_params hello) []
         = (Throw (ErrShrikeScan m), l)
         /\ provider_calls l = [])
  /\ @ScanClient.scan sample_engine failing_world sample_scan_client "Hello!" None []
     = (Throw (ErrError "Error" "Scan API returned error: 500"),
        [EvFetch (scan_client_request sample_scan_client "Hello!" None)]).
Proof.
  destruct (@scan_failures_follow_the_fail_mode sample_engine
              failing_world (sample_client "open") [])
    as (Hstatus_open & _ & _ & _ & _ & Hclient).
  destruct (@scan_failures_follow_the_fail_mode sample_engine
              failing_world (sample_client "closed") [])
    as (Hstatus_closed & _).
  destruct (@scan_failures_follow_the_fail_mode sample_engine
              stalled_world (sample_client "open") [])
    as (_ & Hthrown_stalled & Hopenai_open & Hanthropic_open & _).
  destruct (@scan_failures_follow_the_fail_mode sample_engine
              stalled_world (sample_client "closed") [])
    as (_ & _ & Hopenai_closed & _).
  destruct (@scan_failures_follow_the_fail_mode sample_engine
              unreachable_world (sample_client "open") [])
    as (_ & Hthrown_open & _).
  destruct (@scan_failures_follow_the_fail_mode sample_engine
              unreachable_world (sample_client "closed") [])
    as (_ & Hthrown_closed & _).
  split.
  { exact (proj1 (Hstatus_open "Hello!" _ eq_refl eq_refl) eq_refl). }
  split.
  { exact (proj2 (Hstatus_closed "Hello!" _ eq_refl eq_refl) eq_refl). }
  split.
  { exact (proj1 (proj1 (Hthrown_stalled "Hello!" AbortError eq_refl eq_refl) eq_refl)
             eq_refl). }
  split.
  { exact (proj1 (proj2 (Hthrown_open "Hello!" _ eq_refl eq_refl) eq_refl) eq_refl). }
  split.
  { exact (proj2 (proj2 (Hthrown_closed "Hello!" _ eq_refl eq_refl) eq_refl) eq_refl). }
  split.
  { apply (proj1 (Hopenai_open (sample_params hello) eq_refl eq_refl) eq_refl).
    intros e He. injection He as <-. reflexivity. }
  split.
  { apply (proj1 (Hanthropic_open streaming_params eq_refl eq_refl) eq_refl).
    intros e He. injection He as <-. reflexivity. }
  split.
  { exact (proj2 (Hopenai_closed (sample_params hello) eq_refl eq_refl) eq_refl). }
  assert (JsString.length "Hello!" + ScanClient.optional_length None
            <= ScanClient.MAX_CONTENT_SIZE) as Hfit by (vm_compute; discriminate).
  exact (proj2 (Hclient sample_scan_client "Hello!" None Hfit) _ eq_refl eq_refl).
Defined.

(** C3 as stated fails in two places. [ScanClient.scan], the stand-alone
    scan transport, has no fail mode: a server error is neither turned into
    a safe verdict nor into a [ShrikeScanError], it is thrown as a plain
    [Error]. And [ShrikeAnthropic] does not hand the caller's request to the
    provider as it is: a streaming request goes out with [stream] false. *)
Lemma scan_client_throws_and_anthropic_rewrites :
  @ScanClient.scan sample_engine failing_world sample_scan_client "Hello!" None []
    = (Throw (ErrError "Error" "Scan API returned error: 500"),
       [EvFetch (scan_client_request sample_scan_client "Hello!" None)])
  /\ is_scan_error (ErrError "Error" "Scan API returned error: 500") = false
  /\ @ShrikeAnthropic.create sample_engine stalled_world (sample_client "open")
       streaming_params []
     = (Return JNull,
        [EvFetch (Wrapper.prompt_request (sample_client "open") "Hello!");
         timeout_warning;
         EvProvider (AnthropicMessagesCreate
                       {| messages := hello; stream := JBool false; other := [] |})])
  /\ {| messages := hello; stream := JBool false; other := [] |} <> streaming_params.
Proof.
  split; [vm_compute; reflexivity|]. split; [reflexivity|].
  split; [vm_compute; reflexivity|]. discriminate.
Qed.


Section Unrecognized.
Context `{Engine}.
Import Wrapper.

Lemma specialized_closed_failure (w : World) (c : Client) (log : list Event)
    (p : Payload) (label : string) :
  fail_open c = false ->
  infrastructure_failure (fetch w (scan_request c "/api/scan/specialized" p)) = true ->
  exists m,
    ShrikeOpenAI.specialized_scan w c p label log =
      (Throw (ErrShrikeScan m), log ++ [EvFetch (scan_request c "/api/scan/specialized" p)]).
Proof.
  intros Hc Hfail. unfold infrastructure_failure in Hfail.
  unfold ShrikeOpenAI.specialized_scan. run_monad.
  destruct (fetch w (scan_request c "/api/scan/specialized" p)) as [e|r].
  - rewrite Hc. destruct e; eexists; reflexivity.
  - destruct (ok r); cbn [negb] in *.
    + destruct (body r) as [message|v].
      * rewrite Hc. eexists; reflexivity.
      * destruct (sanitize_parsed v) as [verdict|e]; [discriminate|].
        rewrite Hc. destruct e; eexists; reflexivity.
    + rewrite Hc. eexists; reflexivity.
Qed.

Lemma stored_fail_mode (options : Options) :
  (exists s, failMode options = JStr s) \/ Js.truthy (failMode options) = true ->
  _failMode (constructor options) = failMode options.
Proof.
  intros [(s & Hs)|Ht]; unfold constructor; cbn [_failMode].
  - now rewrite Hs.
  - destruct (failMode options) as [| |b|x|s|items|fields|b];
      try reflexivity; try discriminate Ht; unfold Js.or; now rewrite Ht.
Qed.

Lemma stored_fail_mode_closed (options : Options) :
  failMode options <> JStr "open" ->
  (exists s, failMode options = JStr s) \/ Js.truthy (failMode options) = true ->
  fail_open (constructor options) = false.
Proof.
  intros Hne Hstored. unfold fail_open. rewrite (stored_fail_mode options Hstored).
  destruct (failMode options) as [| | | |s| | |]; try reflexivity.
  apply String.eqb_neq. intros ->. now apply Hne.
Qed.

Lemma default_fail_mode (options : Options) :
  (forall s, failMode options <> JStr s) ->
  Js.truthy (failMode options) = false ->
  _failMode (constructor options) = JStr "open".
Proof.
  intros Hns Ht. unfold constructor; cbn [_failMode].
  destruct (failMode options) as [| |b|x|s|items|fields|b];
    try reflexivity; try discriminate Ht;
    try (unfold Js.or; now rewrite Ht).
  now destruct (Hns s).
Qed.

(** C10, as the code has it. The constructor stores a [failMode] that is a
    string, or a truthy value of another type, as it is, without validation.
    When that value is not the exact string [open] (an unrecognised string
    such as [Open] or [allow] included), every failure of the scan
    infrastructure ends in a [ShrikeScanError]: in [_remoteScan], in each
    generation call, whose provider is then not invoked, and in the
    specialized scans of [ShrikeOpenAI]. A falsy [failMode] that is not a
    string (absent, [null], [0], [false]) is replaced by the default [open]:
    such a client fails open. *)
Theorem unrecognized_fail_mode_is_closed (options : Options) :
  (failMode options <> JStr "open" ->
   (exists s, failMode options = JStr s) \/ Js.truthy (failMode options) = true ->
   _failMode (constructor options) = failMode options
   /\ forall (w : World) (log : list Event),
       (forall prompt,
           infrastructure_failure
             (fetch w (prompt_request (constructor options) prompt)) = true ->
           exists m,
             _remoteScan w (constructor options) prompt log =
               (Throw (ErrShrikeScan m),
                log ++ [EvFetch (prompt_request (constructor options) prompt)]))
       /\ (forall params,
              JsString.is_empty
                (JsString.trim (ShrikeOpenAI._extractUserContent (messages params))) = false ->
              infrastructure_failure
                (fetch w (prompt_request (constructor options)
                            (ShrikeOpenAI._extractUserContent (messages params)))) = true ->
              exists m l,
                ShrikeOpenAI.create w (ShrikeOpenAI.constructor options) params log
                  = (Throw (ErrShrikeScan m), l)
                /\ provider_calls l = provider_calls log)
       /\ (forall params,
              JsString.is_empty
                (JsString.trim (ShrikeAnthropic._extractUserContent (messages params))) = false ->
              infrastructure_failure
                (fetch w (prompt_request (constructor options)
                            (ShrikeAnthropic._extractUserContent (messages params)))) = true ->
              exists m l,
                ShrikeAnthropic.create w (ShrikeAnthropic.constructor options) params log
                  = (Throw (ErrShrikeScan m), l)
                /\ provider_calls l = provider_calls log)
       /\ (forall contents call,
              JsString.is_empty
                (JsString.trim (ShrikeGemini._extractContent contents)) = false ->
              infrastructure_failure
                (fetch w (prompt_request (constructor options)
                            (ShrikeGemini._extractContent contents))) = true ->
              exists m l,
                ShrikeGemini.guarded w (ShrikeGemini.constructor options) contents call log
                  = (Throw (ErrShrikeScan m), l)
                /\ provider_calls l = provider_calls log)
       /\ (forall p label,
              infrastructure_failure
                (fetch w (scan_request (constructor options) "/api/scan/specialized" p))
                = true ->
              exists m l,
                ShrikeOpenAI.specialized_scan w (constructor options) p label log
                  = (Throw (ErrShrikeScan m), l)))
  /\ ((forall s, failMode options <> JStr s) ->
      Js.truthy (failMode options) = false ->
      _failMode (constructor options) = JStr "open"
      /\ forall (w : World) (log : list Event) params,
          JsString.is_empty
            (JsString.trim (ShrikeOpenAI._extractUserContent (messages params))) = false ->
          infrastructure_failure
            (fetch w (prompt_request (constructor options)
                        (ShrikeOpenAI._extractUserContent (messages params)))) = true ->
          (forall e,
              fetch w (prompt_request (constructor options)
                         (ShrikeOpenAI._extractUserContent (messages params)))
                = FetchRejected e -> is_scan_error e = false) ->
          exists l,
            ShrikeOpenAI.create w (ShrikeOpenAI.constructor options) params log =
              (provider w (OpenAIChatCompletionsCreate params),
               l ++ [EvProvider (OpenAIChatCompletionsCreate params)])).
Proof.
  split.
  - intros Hne Hstored.
    pose proof (stored_fail_mode_closed options Hne Hstored) as Hclosed.
    split; [now apply stored_fail_mode|]. intros w log.
    split; [intros prompt Hfail; now apply remoteScan_closed_failure|].
    split; [|split; [|split]].
    + intros params Htext Hfail. unfold ShrikeOpenAI.constructor.
      rewrite openai_create_run, (openai_scan_text w _ log _ Htext).
      destruct (remoteScan_closed_failure w (constructor options) _ log Hclosed Hfail)
        as (m & Hscan).
      unfold ShrikeOpenAI._remoteScan. rewrite Hscan.
      eexists _, _. split; [reflexivity|]. apply provider_calls_fetch.
    + intros params Htext Hfail. unfold ShrikeAnthropic.constructor.
      rewrite anthropic_create_run. cbv zeta.
      rewrite (anthropic_scan_text w _ log _ Htext).
      destruct (remoteScan_closed_failure w (constructor options) _ log Hclosed Hfail)
        as (m & Hscan).
      unfold ShrikeAnthropic._remoteScan. rewrite Hscan.
      eexists _, _. split; [reflexivity|]. apply provider_calls_fetch.
    + intros contents call Htext Hfail. unfold ShrikeGemini.constructor.
      rewrite gemini_guarded_run, (gemini_scan_text w _ log _ Htext).
      destruct (remoteScan_closed_failure w (constructor options) _ log Hclosed Hfail)
        as (m & Hscan).
      unfold ShrikeGemini._remoteScan. rewrite Hscan.
      eexists _, _. split; [reflexivity|]. apply provider_calls_fetch.
    + intros p label Hfail.
      destruct (specialized_closed_failure w (constructor options) log p label
                  Hclosed Hfail) as (m & Hscan).
      eauto.
  - intros Hns Hfalsy.
    pose proof (default_fail_mode options Hns Hfalsy) as Hdefault.
    split; [exact Hdefault|].
    intros w log params Htext Hfail Hrej. unfold ShrikeOpenAI.constructor.
    rewrite openai_create_run, (openai_scan_text w _ log _ Htext).
    unfold ShrikeOpenAI._remoteScan.
    destruct (remoteScan_open_failure w (constructor options) log _
                (mode_open (constructor options) Hdefault) Hfail Hrej)
      as (reason & l & -> & _).
    exists l. reflexivity.
Qed.

End Unrecognized.

Lemma unrecognized_fail_mode_is_closed_witness :
  Wrapper.failMode (sample_options (JStr "Open")) <> JStr "open"
  /\ Wrapper._failMode (Wrapper.constructor (sample_options (JStr "Open"))) = JStr "Open"
  /\ (exists m l,
         @ShrikeOpenAI.create sample_engine stalled_world
           (ShrikeOpenAI.constructor (sample_options (JStr "Open")))
           (sample_params hello) []
         = (Throw (ErrShrikeScan m), l)
         /\ provider_calls l = [])
  /\ Js.truthy (Wrapper.failMode (sample_options (JBool true))) = true
  /\ (exists m l,
         @ShrikeAnthropic.create sample_engine failing_world
           (ShrikeAnthropic.constructor (sample_options (JBool true)))
           (sample_params hello) []
         = (Throw (ErrShrikeScan m), l)
         /\ provider_calls l = [])
  /\ Js.truthy (Wrapper.failMode (sample_options JNull)) = false
  /\ Wrapper._failMode (Wrapper.constructor (sample_options JNull)) = JStr "open".
Proof.
  assert (Wrapper.failMode (sample_options (JStr "Open")) <> JStr "open") as Hne
    by discriminate.
  assert (Wrapper.failMode (sample_options (JBool true)) <> JStr "open") as Hne'
    by discriminate.
  destruct (proj1 (@unrecognized_fail_mode_is_closed sample_engine
                     (sample_options (JStr "Open")))
              Hne (or_introl (ex_intro _ "Open" eq_refl)))
    as (Hstored & Hfailures).
  destruct (Hfailures stalled_world []) as (_ & Hcreate & _).
  destruct (proj1 (@unrecognized_fail_mode_is_closed sample_engine
                     (sample_options (JBool true)))
              Hne' (or_intror eq_refl))
    as (_ & Hfailures').
  destruct (Hfailures' failing_world []) as (_ & _ & Hanthropic & _).
  split; [exact Hne|]. split; [exact Hstored|].
  split; [exact (Hcreate (sample_params hello) eq_refl eq_refl)|].
  split; [reflexivity|].
  split; [exact (Hanthropic (sample_params hello) eq_refl eq_refl)|].
  split; [reflexivity|].
  apply (proj2 (@unrecognized_fail_mode_is_closed sample_engine (sample_options JNull))).
  - intros s. discriminate.
  - reflexivity.
Defined.

(** C10 as stated fails for a [failMode] that is falsy and not a string:
    [null] is a value other than the string [open], and the client built
    from it fails open. The scan times out, the request goes to the
    provider, and no [ShrikeScanError] is thrown. *)
Lemma null_fail_mode_fails_open :
  Wrapper.failMode (sample_options JNull) <> JStr "open"
  /\ Wrapper.fail_open (Wrapper.constructor (sample_options JNull)) = true
  /\ @ShrikeOpenAI.create sample_engine stalled_world
       (ShrikeOpenAI.constructor (sample_options JNull)) (sample_params hello) []
     = (Return JNull,
        [EvFetch (Wrapper.prompt_request
                    (Wrapper.constructor (sample_options JNull)) "Hello!");
         timeout_warning;
         EvProvider (OpenAIChatCompletionsCreate (sample_params hello))]).
Proof.
  split; [discriminate|]. split; [reflexivity|]. vm_compute. reflexivity.
Qed.

(** * Further properties of the code *)

(** ** Sanitizer *)

Lemma normalizeThreatType_idempotent_off_prototype_witness :
  Sanitizer.normalized_key "Tautology-OR" <> "constructor"
  /\ Sanitizer.normalized_key "Tautology-OR" <> "__proto__"
  /\ exists p,
       Sanitizer.normalizeThreatType (JStr "Tautology-OR") = Return (JStr p)
       /\ In p Sanitizer.public_threat_types
       /\ Sanitizer.normalizeThreatType (JStr p) = Return (JStr p).
Proof.
  assert (Sanitizer.normalized_key "Tautology-OR" <> "constructor") as Hc
    by (vm_compute; discriminate).
  assert (Sanitizer.normalized_key "Tautology-OR" <> "__proto__") as Hp
    by (vm_compute; discriminate).
  split; [exact Hc|]. split; [exact Hp|].
  exact (normalizeThreatType_idempotent_off_prototype "Tautology-OR" Hc Hp).
Defined.

Section SanitizerMore.
Context `{Engine}.
Import Sanitizer.

Lemma normalize_unit_idempotent ch :
  let f := fun x =>
    (if Ascii.eqb (JsString.lower_unit x) "-" then "_"%char else JsString.lower_unit x) in
  f (f ch) = f ch.
Proof. destruct ch as [[] [] [] [] [] [] [] []]; reflexivity. Qed.

Lemma normalized_key_idempotent s :
  normalized_key (normalized_key s) = normalized_key s.
Proof.
  unfold normalized_key, JsString.hyphens_to_underscores, JsString.toLowerCase.
  induction s as [|ch r IH]; [reflexivity|].
  cbn [JsString.map_units]. rewrite IH. f_equal.
  apply (normalize_unit_idempotent ch).
Qed.

Lemma normalized_key_empty s :
  JsString.is_empty (normalized_key s) = JsString.is_empty s.
Proof. now destruct s. Qed.

(** X2. Normalization looks at the threat type through its lower-case,
    underscore form only: a raw type and that form of it normalize alike,
    so letter case and the choice between hyphen and underscore never
    matter. *)
Theorem normalizeThreatType_case_and_hyphen_blind (s : string) :
  normalizeThreatType (JStr (normalized_key s)) = normalizeThreatType (JStr s).
Proof.
  rewrite !normalizeThreatType_string.
  now rewrite normalized_key_idempotent, normalized_key_empty.
Qed.

Lemma severity_of_public p :
  In p public_threat_types ->
  exists sev, Js.or (Js.table_get THREAT_SEVERITY p) (JStr "medium") = JStr sev
              /\ In sev validSeverities.
Proof.
  assert (forallb
            (fun q => match Js.or (Js.table_get THREAT_SEVERITY q) (JStr "medium") with
                      | JStr sev => existsb (String.eqb sev) validSeverities
                      | _ => false
                      end) public_threat_types = true) as Hall
    by (vm_compute; reflexivity).
  rewrite forallb_forall in Hall. intros Hin. specialize (Hall p Hin).
  destruct (Js.or _ _) as [| | | |sev| | |]; try discriminate.
  exists sev. split; [reflexivity|].
  apply existsb_exists in Hall as (x & Hx & Heq).
  apply String.eqb_eq in Heq. now subst.
Qed.

Lemma guidance_of_public p :
  In p public_threat_types ->
  exists g, Js.or (Js.table_get THREAT_GUIDANCE p)
                  (Js.table_get THREAT_GUIDANCE "unknown") = JStr g
            /\ In g guidance_texts /\ JsString.is_empty g = false.
Proof.
  assert (forallb
            (fun q => match Js.or (Js.table_get THREAT_GUIDANCE q)
                                  (Js.table_get THREAT_GUIDANCE "unknown") with
                      | JStr g => existsb (String.eqb g) guidance_texts
                                  && negb (JsString.is_empty g)
                      | _ => false
                      end) public_threat_types = true) as Hall
    by (vm_compute; reflexivity).
  rewrite forallb_forall in Hall. intros Hin. specialize (Hall p Hin).
  destruct (Js.or _ _) as [| | | |g| | |]; try discriminate.
  exists g. split; [reflexivity|].
  apply andb_prop in Hall as [Hex Hne].
  apply existsb_exists in Hex as (x & Hx & Heq).
  apply String.eqb_eq in Heq. subst x.
  split; [assumption|]. now destruct (JsString.is_empty g).
Qed.

(** The values [normalizeThreatType] can return. *)
Lemma normalizeThreatType_values rawType v :
  normalizeThreatType rawType = Return v ->
  (exists p, v = JStr p /\ In p public_threat_types)
  \/ v = JBuiltin ObjectConstructor \/ v = JBuiltin ObjectPrototype.
Proof.
  intros Hn.
  destruct rawType as [| |b|x|s|items|fields|b];
    try (unfold normalizeThreatType in Hn; cbn in Hn;
         first [ discriminate
               | injection Hn as <-; left; eexists; split; [reflexivity|now left] ]).
  - unfold normalizeThreatType in Hn. cbn in Hn. destruct b; [discriminate|].
    injection Hn as <-. left; eexists; split; [reflexivity|now left].
  - unfold normalizeThreatType in Hn.
    destruct (negb (Js.truthy (JNum x))); [|discriminate].
    injection Hn as <-. left; eexists; split; [reflexivity|now left].
  - destruct (normalizeThreatType_range s) as [(p & Hp & Hin)|[[_ Hc]|[_ Hc]]];
      rewrite Hn in *.
    + injection Hp as ->. left. eauto.
    + injection Hc as ->. auto.
    + injection Hc as ->. auto.
Qed.

Lemma deriveSeverity_valid threatType rawSeverity :
  (exists p, threatType = JStr p /\ In p public_threat_types)
  \/ threatType = JBuiltin ObjectConstructor \/ threatType = JBuiltin ObjectPrototype ->
  exists sev, deriveSeverity threatType rawSeverity = JStr sev
              /\ In sev validSeverities.
Proof.
  intros Hv.
  assert (exists sev,
             Js.or (Js.table_get THREAT_SEVERITY (ToString threatType)) (JStr "medium")
               = JStr sev /\ In sev validSeverities) as Htable.
  { destruct Hv as [(p & -> & Hin)|[->| ->]].
    - now apply severity_of_public.
    - exists "medium". split; [reflexivity|]. cbn. auto.
    - exists "medium". split; [reflexivity|]. cbn. auto. }
  unfold deriveSeverity. destruct rawSeverity as [sev|]; [|exact Htable].
  destruct (negb (JsString.is_empty sev)
            && existsb (String.eqb (JsString.toLowerCase sev)) validSeverities)
    eqn:Hvalid; [|exact Htable].
  apply andb_prop in Hvalid as [_ Hex].
  apply existsb_exists in Hex as (x & Hx & Heq).
  apply String.eqb_eq in Heq. exists (JsString.toLowerCase sev).
  split; [reflexivity|]. now rewrite Heq.
Qed.

Lemma guidance_valid threatType :
  (exists p, threatType = JStr p /\ In p public_threat_types)
  \/ threatType = JBuiltin ObjectConstructor \/ threatType = JBuiltin ObjectPrototype ->
  exists g, Js.or (Js.table_get THREAT_GUIDANCE (ToString threatType))
                  (Js.table_get THREAT_GUIDANCE "unknown") = JStr g
            /\ In g guidance_texts /\ JsString.is_empty g = false.
Proof.
  intros [(p & -> & Hin)|[->| ->]].
  - now apply guidance_of_public.
  - eexists. split; [reflexivity|]. split; [|reflexivity].
    unfold guidance_texts. cbn. tauto.
  - eexists. split; [reflexivity|]. split; [|reflexivity].
    unfold guidance_texts. cbn. tauto.
Qed.

Lemma unsafe_verdict_shape (raw out : gmap string JsValue) :
  sanitizeScanResponse raw = Return out ->
  out !! "safe" = Some (JBool false) ->
  exists threatType,
    normalizeThreatType (Js.prop raw "threat_type") = Return threatType
    /\ out !! "threat_type" = Some threatType
    /\ out !! "severity" =
         Some (deriveSeverity threatType
                 match Js.prop raw "severity" with JStr s => Some s | _ => None end)
    /\ out !! "guidance" =
         Some (Js.or (Js.table_get THREAT_GUIDANCE (ToString threatType))
                     (Js.table_get THREAT_GUIDANCE "unknown"))
    /\ out !! "reason" =
         Some (Js.or (Js.prop raw "reason")
                 (Js.or (Js.table_get THREAT_GUIDANCE (ToString threatType))
                        (Js.table_get THREAT_GUIDANCE "unknown"))).
Proof.
  intros Hout Hsafe.
  destruct (Js.is_false (Js.prop raw "safe")) eqn:Hs.
  - apply is_false_spec in Hs.
    destruct (normalizeThreatType (Js.prop raw "threat_type")) as [tt|e] eqn:Hn.
    + rewrite (unsafe_branch raw tt Hs Hn) in Hout. cbv zeta in Hout.
      injection Hout as <-. exists tt. repeat split.
    + rewrite (unsafe_throws raw e Hs Hn) in Hout. discriminate.
  - rewrite safe_branch in Hout.
    + injection Hout as <-. discriminate.
    + intros Heq. apply is_false_spec in Heq. congruence.
Qed.

Lemma deriveSeverity_mechanism threatType rawSeverity :
  deriveSeverity threatType rawSeverity =
    match rawSeverity with
    | Some given =>
        if existsb (String.eqb (JsString.toLowerCase given)) validSeverities
        then JStr (JsString.toLowerCase given)
        else Js.or (Js.table_get THREAT_SEVERITY (ToString threatType)) (JStr "medium")
    | None => Js.or (Js.table_get THREAT_SEVERITY (ToString threatType)) (JStr "medium")
    end.
Proof.
  unfold deriveSeverity. destruct rawSeverity as [given|]; [|reflexivity].
  destruct given as [|ch r]; reflexivity.
Qed.

(** X3. In every unsafe verdict of the sanitizer the severity is one of
    [critical], [high], [medium] and [low], whatever the backend sent as
    severity and as threat type. A raw severity that is a string whose
    lower-case form is one of the four is used, lower-cased; any other raw
    severity falls back to the default of the normalized threat type in
    [THREAT_SEVERITY], or to [medium]. *)
Theorem unsafe_verdict_severity_is_valid (raw out : gmap string JsValue) :
  sanitizeScanResponse raw = Return out ->
  out !! "safe" = Some (JBool false) ->
  exists threatType sev,
    normalizeThreatType (Js.prop raw "threat_type") = Return threatType
    /\ out !! "severity" = Some (JStr sev)
    /\ In sev validSeverities
    /\ match Js.prop raw "severity" with
       | JStr given =>
           if existsb (String.eqb (JsString.toLowerCase given)) validSeverities
           then sev = JsString.toLowerCase given
           else Js.or (Js.table_get THREAT_SEVERITY (ToString threatType))
                      (JStr "medium") = JStr sev
       | _ => Js.or (Js.table_get THREAT_SEVERITY (ToString threatType))
                    (JStr "medium") = JStr sev
       end.
Proof.
  intros Hout Hsafe.
  destruct (unsafe_verdict_shape raw out Hout Hsafe) as (tt & Hn & _ & Hsev & _).
  pose proof (normalizeThreatType_values _ _ Hn) as Hvalues.
  destruct (deriveSeverity_valid tt
              match Js.prop raw "severity" with JStr s => Some s | _ => None end
              Hvalues)
    as (sev & Heq & Hin).
  exists tt, sev. split; [exact Hn|]. split; [now rewrite Hsev, Heq|].
  split; [exact Hin|].
  rewrite deriveSeverity_mechanism in Heq.
  destruct (Js.prop raw "severity") as [| | | |given| | |]; try exact Heq.
  destruct (existsb (String.eqb (JsString.toLowerCase given)) validSeverities);
    [now injection Heq|exact Heq].
Qed.

Lemma unsafe_verdict_guidance (raw out : gmap string JsValue) :
  sanitizeScanResponse raw = Return out ->
  out !! "safe" = Some (JBool false) ->
  exists g,
    out !! "guidance" = Some (JStr g)
    /\ In g guidance_texts
    /\ out !! "reason" = Some (Js.or (Js.prop raw "reason") (JStr g))
    /\ Js.truthy (Js.prop out "reason") = true.
Proof.
  intros Hout Hsafe.
  destruct (unsafe_verdict_shape raw out Hout Hsafe)
    as (tt & Hn & _ & _ & Hg & Hr).
  apply normalizeThreatType_values in Hn.
  destruct (guidance_valid tt Hn) as (g & Heq & Hin & Hne).
  rewrite Heq in Hg, Hr. exists g. repeat split; try assumption.
  unfold Js.prop at 1. rewrite Hr. cbn. unfold Js.or.
  destruct (Js.truthy (Js.prop raw "reason")) eqn:Ht; [exact Ht|].
  cbn. now rewrite Hne.
Qed.

(** X4. In every unsafe verdict of the sanitizer the guidance is one of the
    fixed guidance texts, and the reason is never empty: it is the backend's
    reason when that is truthy and the guidance otherwise. *)
Theorem unsafe_verdict_has_guidance_and_reason (raw out : gmap string JsValue) :
  sanitizeScanResponse raw = Return out ->
  out !! "safe" = Some (JBool false) ->
  exists g,
    out !! "guidance" = Some (JStr g)
    /\ In g guidance_texts
    /\ out !! "reason" = Some (Js.or (Js.prop raw "reason") (JStr g))
    /\ Js.truthy (Js.prop out "reason") = true.
Proof. apply unsafe_verdict_guidance. Qed.

End SanitizerMore.

Lemma unsafe_verdict_severity_is_valid_witness :
  @Sanitizer.sanitizeScanResponse sample_engine graded_payload = Return graded_verdict
  /\ graded_verdict !! "safe" = Some (JBool false)
  /\ graded_verdict !! "severity" = Some (JStr "low")
  /\ Js.table_get Sanitizer.THREAT_SEVERITY "sql_injection" = JStr "critical"
  /\ exists threatType sev,
       Sanitizer.normalizeThreatType (Js.prop graded_payload "threat_type")
         = Return threatType
       /\ graded_verdict !! "severity" = Some (JStr sev)
       /\ In sev Sanitizer.validSeverities
       /\ sev = JsString.toLowerCase "LOW".
Proof.
  assert (@Sanitizer.sanitizeScanResponse sample_engine graded_payload
          = Return graded_verdict) as Hout by (vm_compute; reflexivity).
  split; [exact Hout|]. split; [reflexivity|]. split; [reflexivity|].
  split; [reflexivity|].
  exact (@unsafe_verdict_severity_is_valid sample_engine
           graded_payload graded_verdict Hout eq_refl).
Defined.

Lemma unsafe_verdict_has_guidance_and_reason_witness :
  @Sanitizer.sanitizeScanResponse sample_engine tautology_payload
    = Return tautology_verdict
  /\ tautology_verdict !! "safe" = Some (JBool false)
  /\ exists g,
       tautology_verdict !! "guidance" = Some (JStr g)
       /\ In g guidance_texts
       /\ tautology_verdict !! "reason"
          = Some (Js.or (Js.prop tautology_payload "reason") (JStr g))
       /\ Js.truthy (Js.prop tautology_verdict "reason") = true.
Proof.
  assert (@Sanitizer.sanitizeScanResponse sample_engine tautology_payload
          = Return tautology_verdict) as Hout by (vm_compute; reflexivity).
  split; [exact Hout|]. split; [reflexivity|].
  exact (@unsafe_verdict_has_guidance_and_reason sample_engine
           tautology_payload tautology_verdict Hout eq_refl).
Defined.

(** ** Scan transport *)

Section TransportMore.
Context `{Engine}.
Import Wrapper.

Lemma provider_calls_after_request (l tail : list Event) (r : Request) :
  provider_calls tail = [] -> provider_calls (l ++ EvFetch r :: tail) = provider_calls l.
Proof.
  intros Ht. unfold provider_calls in *. rewrite omap_app. cbn.
  rewrite Ht. apply app_nil_r.
Qed.

(** X5. Whatever the scan service does, [_remoteScan] sends exactly one
    request, for the prompt it was given, and never invokes the provider:
    there is no retry and no second endpoint. *)
Theorem remote_scan_sends_one_request
    (w : World) (c : Client) (prompt : string) (log : list Event) :
  fetches (snd (_remoteScan w c prompt log)) = fetches log ++ [prompt_request c prompt]
  /\ provider_calls (snd (_remoteScan w c prompt log)) = provider_calls log.
Proof.
  destruct (remoteScan_log w c prompt log) as (tail & -> & Hf & Hp).
  split; [now apply fetches_after_request | now apply provider_calls_after_request].
Qed.

(** X6. Under the mode [open], every failure of the scan infrastructure
    that is not itself a [ShrikeScanError] rejection ends in a safe verdict:
    the request is allowed. This includes an answer the sanitizer throws on,
    so an unsafe answer whose [threat_type] is not a string lets the
    generation call through to the provider. *)
Theorem open_mode_allows_on_failure
    (w : World) (c : Client) (log : list Event) :
  fail_open c = true ->
  (forall prompt,
      infrastructure_failure (fetch w (prompt_request c prompt)) = true ->
      (forall e, fetch w (prompt_request c prompt) = FetchRejected e ->
                 is_scan_error e = false) ->
      exists reason l,
        _remoteScan w c prompt log = (Return (safe_verdict reason), l))
  /\ (forall params,
         JsString.is_empty
           (JsString.trim (ShrikeOpenAI._extractUserContent (messages params))) = false ->
         infrastructure_failure
           (fetch w (prompt_request c
                       (ShrikeOpenAI._extractUserContent (messages params)))) = true ->
         (forall e,
             fetch w (prompt_request c
                        (ShrikeOpenAI._extractUserContent (messages params)))
               = FetchRejected e -> is_scan_error e = false) ->
         exists l,
           ShrikeOpenAI.create w c params log =
             (provider w (OpenAIChatCompletionsCreate params),
              l ++ [EvProvider (OpenAIChatCompletionsCreate params)])).
Proof.
  intros Hopen.
  assert (forall prompt,
             infrastructure_failure (fetch w (prompt_request c prompt)) = true ->
             (forall e, fetch w (prompt_request c prompt) = FetchRejected e ->
                        is_scan_error e = false) ->
             exists reason l,
               _remoteScan w c prompt log = (Return (safe_verdict reason), l))
    as Hscan.
  { intros prompt Hfail Hrej. unfold infrastructure_failure in Hfail.
    destruct (fetch w (prompt_request c prompt)) as [e|r] eqn:Hf.
    - rewrite (remoteScan_rejected w c prompt log e Hf).
      destruct (catch_block_open c e (log ++ [EvFetch (prompt_request c prompt)])
                  Hopen (Hrej e eq_refl)) as (reason & tail & -> & _).
      eauto.
    - destruct (ok r) eqn:Hok.
      + destruct (body r) as [message|v] eqn:Hb.
        * rewrite (remoteScan_bad_json w c prompt log r message Hf Hok Hb).
          destruct (catch_block_open c (ErrError "SyntaxError" message)
                      (log ++ [EvFetch (prompt_request c prompt)]) Hopen eq_refl)
            as (reason & tail & -> & _).
          eauto.
        * destruct (sanitize_parsed v) as [verdict|e] eqn:Hs; [discriminate|].
          rewrite (remoteScan_sanitizer_throws w c prompt log r v e Hf Hok Hb Hs).
          destruct (catch_block_open c e (log ++ [EvFetch (prompt_request c prompt)])
                      Hopen (sanitize_parsed_throws v e Hs))
            as (reason & tail & -> & _).
          eauto.
      + rewrite (remoteScan_not_ok w c prompt log r Hf Hok), Hopen. eauto. }
  split; [exact Hscan|].
  intros params Htext Hfail Hrej.
  rewrite openai_create_run, (openai_scan_text w c log _ Htext).
  destruct (Hscan _ Hfail Hrej) as (reason & l & Heq).
  unfold ShrikeOpenAI._remoteScan. rewrite Heq. cbn. eauto.
Qed.

(** X7. Which options make a fail-open client: the string [open], and every
    falsy value that is not a string (an absent [failMode], [null], [0],
    [false]), which the constructor replaces by the default. Every other
    value, a string or not, gives a client that fails closed. *)
Theorem constructor_fail_open_iff (options : Options) :
  fail_open (constructor options) = true
  <-> failMode options = JStr "open"
      \/ ((forall s, failMode options <> JStr s)
          /\ Js.truthy (failMode options) = false).
Proof.
  unfold fail_open, constructor. cbn.
  destruct (failMode options) as [| |b|x|s|items|fields|b] eqn:Hmode; cbn.
  all: try (split; [intros _; right; split; [discriminate|reflexivity]
                   | reflexivity]).
  all: try (split; [discriminate
                   | intros [Heq|[_ Heq]]; discriminate]).
  - destruct b; cbn.
    + split; [discriminate | intros [Heq|[_ Heq]]; discriminate].
    + split; [intros _; right; split; [discriminate|reflexivity] | reflexivity].
  - unfold Js.or. cbn.
    destruct (negb (PrimFloat.eqb x 0) && negb (Js.is_nan x)); cbn.
    + split; [discriminate | intros [Heq|[_ Heq]]; discriminate].
    + split; [intros _; right; split; [discriminate|reflexivity] | reflexivity].
  - split.
    + intros Heq. apply String.eqb_eq in Heq. left. now subst.
    + intros [[= ->]|[Hns _]]; [reflexivity|]. now destruct (Hns s).
Qed.

End TransportMore.

Lemma open_mode_allows_on_failure_witness :
  Wrapper.fail_open (sample_client "open") = true
  /\ @infrastructure_failure sample_engine (answers 200 malformed_payload) = true
  /\ exists l,
       @ShrikeOpenAI.create sample_engine (world_of (answers 200 malformed_payload))
         (sample_client "open") (sample_params hello) []
       = (Return JNull, l ++ [EvProvider (OpenAIChatCompletionsCreate (sample_params hello))]).
Proof.
  assert (@infrastructure_failure sample_engine (answers 200 malformed_payload) = true)
    as Hfail by (vm_compute; reflexivity).
  split; [reflexivity|]. split; [exact Hfail|].
  destruct (@open_mode_allows_on_failure sample_engine
              (world_of (answers 200 malformed_payload)) (sample_client "open") []
              eq_refl) as (_ & Hcreate).
  apply (Hcreate (sample_params hello) eq_refl Hfail).
  intros e He. discriminate He.
Defined.

(** ** Forwarding *)

Section Forwarding.
Context `{Engine}.
Import Wrapper.

(** X8. When the scan step resolves to a verdict whose [safe] is truthy, each
    entry point invokes its own provider method exactly once and returns
    what the provider returns or throws, untouched. [ShrikeOpenAI] and
    [ShrikeGemini] pass the caller's request as it is; [ShrikeAnthropic]
    passes it with [stream] set to [false]. *)
Theorem safe_verdict_is_forwarded
    (w : World) (c : Client) (log l : list Event) (verdict : gmap string JsValue) :
  unsafe verdict = false ->
  (forall params,
      ShrikeOpenAI._scanMessages w c (messages params) log = (Return verdict, l) ->
      ShrikeOpenAI.create w c params log =
        (provider w (OpenAIChatCompletionsCreate params),
         l ++ [EvProvider (OpenAIChatCompletionsCreate params)]))
  /\ (forall params,
         ShrikeAnthropic._scanMessages w c (messages params) log = (Return verdict, l) ->
         ShrikeAnthropic.create w c params log =
           (provider w
              (AnthropicMessagesCreate
                 {| messages := messages params;
                    stream := JBool false;
                    other := other params |}),
            l ++ [EvProvider
                    (AnthropicMessagesCreate
                       {| messages := messages params;
                          stream := JBool false;
                          other := other params |})]))
  /\ (forall contents,
         ShrikeGemini._scanContent w c contents log = (Return verdict, l) ->
         ShrikeGemini.generateContent w c contents log =
           (provider w (GeminiGenerateContent contents),
            l ++ [EvProvider (GeminiGenerateContent contents)])
         /\ ShrikeGemini.generateContentStream w c contents log =
              (provider w (GeminiGenerateContentStream contents),
               l ++ [EvProvider (GeminiGenerateContentStream contents)])
         /\ ShrikeGemini.sendMessage w c contents log =
              (provider w (GeminiSendMessage contents),
               l ++ [EvProvider (GeminiSendMessage contents)])
         /\ ShrikeGemini.sendMessageStream w c contents log =
              (provider w (GeminiSendMessageStream contents),
               l ++ [EvProvider (GeminiSendMessageStream contents)])).
Proof.
  intros Hsafe.
  split; [intros params Hscan|split; [intros params Hscan|intros contents Hscan]].
  - now rewrite openai_create_run, Hscan, Hsafe.
  - rewrite anthropic_create_run. cbv zeta. now rewrite Hscan, Hsafe.
  - unfold ShrikeGemini.generateContent, ShrikeGemini.generateContentStream,
      ShrikeGemini.sendMessage, ShrikeGemini.sendMessageStream.
    rewrite !gemini_guarded_run, Hscan, Hsafe. repeat split.
Qed.

End Forwarding.

Lemma safe_verdict_is_forwarded_witness :
  Wrapper.unsafe (Wrapper.safe_verdict "") = false
  /\ @ShrikeAnthropic._scanMessages sample_engine calm_world (sample_client "closed")
       hello []
     = (Return (Wrapper.safe_verdict ""),
        [EvFetch (Wrapper.prompt_request (sample_client "closed") "Hello!")])
  /\ @ShrikeAnthropic.create sample_engine calm_world (sample_client "closed")
       {| messages := hello; stream := JBool true; other := [] |} []
     = (Return JNull,
        [EvFetch (Wrapper.prompt_request (sample_client "closed") "Hello!");
         EvProvider (AnthropicMessagesCreate
                       {| messages := hello; stream := JBool false; other := [] |})]).
Proof.
  assert (@ShrikeAnthropic._scanMessages sample_engine calm_world
            (sample_client "closed") hello []
          = (Return (Wrapper.safe_verdict ""),
             [EvFetch (Wrapper.prompt_request (sample_client "closed") "Hello!")]))
    as Hscan by (vm_compute; reflexivity).
  split; [reflexivity|]. split; [exact Hscan|].
  destruct (@safe_verdict_is_forwarded sample_engine calm_world
              (sample_client "closed") []
              [EvFetch (Wrapper.prompt_request (sample_client "closed") "Hello!")]
              (Wrapper.safe_verdict "") eq_refl) as (_ & Hanthropic & _).
  exact (Hanthropic {| messages := hello; stream := JBool true; other := [] |} Hscan).
Defined.

(** ** Extraction and the blank check *)

Section ExtractionMore.
Context `{Engine}.
Import Wrapper.

Lemma user_spans_of_user_messages messages :
  user_spans (user_messages messages) = user_spans messages.
Proof.
  unfold user_spans, user_messages.
  induction messages as [|msg rest IH]; [reflexivity|].
  cbn [List.filter flat_map].
  destruct (String.eqb (role msg) "user") eqn:Hrole.
  - cbn [flat_map]. now rewrite Hrole, IH.
  - exact IH.
Qed.

(** X9. Only the messages of the user role reach the scan: removing every
    other message (system, assistant, tool) from a conversation leaves the
    extracted text of both extractors unchanged. *)
Theorem extraction_ignores_other_roles (messages : list ChatMessage) :
  ShrikeOpenAI._extractUserContent (user_messages messages)
    = ShrikeOpenAI._extractUserContent messages
  /\ ShrikeAnthropic._extractUserContent (user_messages messages)
     = ShrikeAnthropic._extractUserContent messages.
Proof.
  rewrite !openai_extract_spans, !anthropic_extract_spans.
  now rewrite user_spans_of_user_messages.
Qed.






End ExtractionMore.

(** ** [ScanClient] within the limit *)

Section ScanClientMore.
Context `{Engine}.

(** X11. [ScanClient.scan] has no fail mode. For an input within the size
    limit it sends one request to [/scan] (with the context only when it is
    not empty); a rejected request reaches the caller as it was thrown, a
    response that is not ok becomes a plain [Error] naming the status, and
    an answer is returned sanitized. *)
Theorem scan_client_never_fails_open
    (w : World) (c : ScanClient.Client) (log : list Event)
    (prompt : string) (context : option string) :
  JsString.length prompt + ScanClient.optional_length context
    <= ScanClient.MAX_CONTENT_SIZE ->
  fetches (snd (ScanClient.scan w c prompt context log))
    = fetches log ++ [scan_client_request c prompt context]
  /\ (forall e,
         fetch w (scan_client_request c prompt context) = FetchRejected e ->
         ScanClient.scan w c prompt context log =
           (Throw e, log ++ [EvFetch (scan_client_request c prompt context)]))
  /\ (forall r,
         fetch w (scan_client_request c prompt context) = FetchResponse r ->
         ok r = false ->
         ScanClient.scan w c prompt context log =
           (Throw (ErrError "Error"
                     ("Scan API returned error: " +:+ JsString.of_Z (status r))),
            log ++ [EvFetch (scan_client_request c prompt context)]))
  /\ (forall r raw,
         fetch w (scan_client_request c prompt context) = FetchResponse r ->
         ok r = true ->
         body r = BodyParsed (ParsedObject raw) ->
         ScanClient.scan w c prompt context log =
           (Sanitizer.sanitizeScanResponse raw,
            log ++ [EvFetch (scan_client_request c prompt context)])).
Proof.
  intros Hfit. apply Z.ltb_ge in Hfit.
  assert (ScanClient.scan w c prompt context log =
            ScanClient.post w c "/scan"
              (payload (scan_client_request c prompt context)) "Scan API" log)
    as Hpost.
  { unfold ScanClient.scan. cbv zeta. now rewrite Hfit. }
  rewrite Hpost. unfold ScanClient.post. run_monad.
  change {| url := ScanClient.endpoint c +:+ "/scan";
            bearer := ScanClient.apiKey c;
            payload := payload (scan_client_request c prompt context) |}
    with (scan_client_request c prompt context).
  split; [|split; [|split]].
  - destruct (fetch w (scan_client_request c prompt context)) as [e|r].
    + cbn. now rewrite (fetches_after_request log [] _ eq_refl).
    + destruct (ok r); cbn.
      * destruct (body r) as [m|v]; cbn;
          [|destruct (sanitize_parsed v)];
          now rewrite (fetches_after_request log [] _ eq_refl).
      * now rewrite (fetches_after_request log [] _ eq_refl).
  - intros e ->. reflexivity.
  - intros r -> ->. reflexivity.
  - intros r raw -> -> ->. cbn.
    now destruct (Sanitizer.sanitizeScanResponse raw).
Qed.

End ScanClientMore.

Lemma scan_client_never_fails_open_witness :
  JsString.length "Hello!" + ScanClient.optional_length (Some "")
    <= ScanClient.MAX_CONTENT_SIZE
  /\ @ScanClient.scan sample_engine failing_world sample_scan_client
       "Hello!" (Some "") []
     = (Throw (ErrError "Error" "Scan API returned error: 500"),
        [EvFetch {| url := "https://api.shrikesecurity.com/agent/scan";
                    bearer := "shrike-test";
                    payload := PromptPayload "Hello!" None |}]).
Proof.
  assert (JsString.length "Hello!" + ScanClient.optional_length (Some "")
            <= ScanClient.MAX_CONTENT_SIZE) as Hfit by (vm_compute; discriminate).
  split; [exact Hfit|].
  destruct (@scan_client_never_fails_open sample_engine failing_world
              sample_scan_client [] "Hello!" (Some "") Hfit)
    as (_ & _ & Hstatus & _).
  exact (Hstatus _ eq_refl eq_refl).
Defined.

(** ** From the backend's answer to the blocking error *)

Section EndToEnd.
Context `{Engine}.
Import Wrapper.


End EndToEnd.


(** ** Gemini contents and the specialized scans *)

Section GeminiAndSpecialized.
Context `{Engine}.
Import Wrapper.

Lemma extract_items_with_text items :
  ShrikeGemini.extract_items (with_text items) = ShrikeGemini.extract_items items.
Proof.
  unfold ShrikeGemini.extract_items, with_text. f_equal.
  induction items as [|item rest IH]; [reflexivity|].
  cbn [List.filter flat_map].
  destruct item as [s|[t|]]; cbn [textless negb].
  - cbn [flat_map]. now rewrite IH.
  - destruct (JsString.is_empty t) eqn:Ht; cbn [negb flat_map]; now rewrite ?Ht, IH.
  - exact IH.
Qed.

(** X13. What Gemini contents come to: a part list under [parts] extracts
    like the bare list, the items without text (no [text], or an empty one)
    never change the result, and a non-empty [text] of the object wins over
    its [parts]. *)
Theorem gemini_extraction_shapes (items : list GeminiPart) (t : string)
    (parts : option (list GeminiPart)) :
  ShrikeGemini._extractContent (GObject None (Some items))
    = ShrikeGemini._extractContent (GArray items)
  /\ ShrikeGemini._extractContent (GArray (with_text items))
     = ShrikeGemini._extractContent (GArray items)
  /\ (JsString.is_empty t = false ->
      ShrikeGemini._extractContent (GObject (Some t) parts) = t).
Proof.
  split; [reflexivity|]. split; [apply extract_items_with_text|].
  intros Ht. unfold ShrikeGemini._extractContent, string_or.
  rewrite Ht. cbv beta iota. now rewrite Ht.
Qed.

(** X14. The specialized scans of [ShrikeOpenAI] send one request each, to
    [/api/scan/specialized], and log nothing else: [scanSql] sends the query
    as [sql] with the database name (empty when absent) and the
    destructive flag as text; [scanFile] sends the path as [file_content]
    together with the content when a non-empty content is given, and as
    [file_path] without context otherwise. *)
Theorem specialized_scans_send_one_request (w : World) (c : Client) (log : list Event) :
  (forall query database allowDestructive,
      snd (ShrikeOpenAI.scanSql w c query database allowDestructive log)
        = log ++ [EvFetch (sql_request c query database allowDestructive)])
  /\ (forall path content,
         snd (ShrikeOpenAI.scanFile w c path content log)
           = log ++ [EvFetch (file_request c path content)]).
Proof.
  split.
  - intros query database allowDestructive.
    unfold ShrikeOpenAI.scanSql. now rewrite specialized_log.
  - intros path content. unfold ShrikeOpenAI.scanFile. cbv zeta.
    rewrite specialized_log. unfold file_request.
    destruct content as [text|]; [|reflexivity].
    unfold string_or. destruct (JsString.is_empty text) eqn:Ht; cbv beta iota.
    + reflexivity.
    + now rewrite Ht.
Qed.

End GeminiAndSpecialized.

Lemma gemini_extraction_shapes_witness :
  JsString.is_empty "Hi" = false
  /\ ShrikeGemini._extractContent
       (GObject (Some "Hi") (Some [PartString "ignored"])) = "Hi".
Proof.
  split; [reflexivity|].
  destruct (gemini_extraction_shapes [] "Hi" (Some [PartString "ignored"]))
    as (_ & _ & Htext).
  exact (Htext eq_refl).
Defined.
